(** * Purchase Order Analysis Tool: the reporting pipeline of [app.py]

    A shallow embedding of the data path of [app.py]: the required-column
    check, the numeric coercion of the three monetary columns, the
    date / supplier / cost-centre mask, the two derived columns, and the
    aggregations (KPI totals, supplier summary, the two trend frames and the
    two top-10 charts).

    Modelling conventions.
    - A pandas frame as loaded is a list of named columns of cells
      ([DataFrame]); from the mask onwards rows are typed records.
    - Monetary values are exact numbers ([Z]); a missing value (NaN, NaT,
      None) is [None].  Rounding of binary floating point is not modelled;
      how the summary and the trend frames reconcile with the KPI totals is
      therefore stated on the rows and values that are summed, not on the
      totals.
    - [groupby] is pandas' default: group keys sorted ascending, rows whose
      key is missing dropped, [sum] skipping missing values.
    - [sort_values] is called with its default [kind] ("quicksort").  What
      holds of every sort is proved from the sort's contract ([SortKind]);
      the default kind itself is numpy's introsort on the index array
      ([aquicksort]), which does not keep the order of equal keys once a
      range has more than 17 elements.
    - Typed rows follow the record model of the data: supplier and cost
      centre cells are text or missing, date cells are timestamps or
      missing ([typed_frame]).
    - The widgets, charts, the drill-down table with its styling (lines
      86-105) and the CSV export are presentation and are not modelled.  In
      the file as given the [else:] of line 102 has no body, which Python
      rejects; the embedding follows the statements in their written
      order. *)

From Stdlib Require Import ZArith List String Ascii Bool Lia Permutation Sorted.
Import ListNotations.

Open Scope Z_scope.

(* ================================================================== *)
(** * Generic list helpers                                             *)
(* ================================================================== *)

(** [Series.dropna]: the present values, in order. *)
Fixpoint dropna {A : Type} (l : list (option A)) : list A :=
  match l with
  | [] => []
  | Some a :: t => a :: dropna t
  | None :: t => dropna t
  end.

(** Sum of a list of numbers. *)
Definition sumZ (l : list Z) : Z := fold_right Z.add 0 l.

(** [Series.sum()] with the default [skipna=True], [min_count=0]:
    missing values are skipped and the empty sum is 0. *)
Definition nansum (l : list (option Z)) : Z := sumZ (dropna l).


(** [Series.unique()]: distinct values in order of first appearance. *)
Fixpoint unique {A : Type} (eqbA : A -> A -> bool) (l : list A) : list A :=
  match l with
  | [] => []
  | x :: t => x :: filter (fun y => negb (eqbA y x)) (unique eqbA t)
  end.

(** Insertion sort driven by a boolean "goes before" test.  An element is
    placed in front of the first element it goes before. *)
Fixpoint insert {A : Type} (before : A -> A -> bool) (x : A) (l : list A) : list A :=
  match l with
  | [] => [x]
  | y :: t => if before x y then x :: y :: t else y :: insert before x t
  end.

Fixpoint isort {A : Type} (before : A -> A -> bool) (l : list A) : list A :=
  match l with
  | [] => []
  | x :: t => insert before x (isort before t)
  end.

(** Python's [", ".join(xs)]. *)
Fixpoint join (sep : string) (xs : list string) : string :=
  match xs with
  | [] => EmptyString
  | [x] => x
  | x :: t => (x ++ sep ++ join sep t)%string
  end.

(* ================================================================== *)
(** * The library's sort, by contract                                  *)
(* ================================================================== *)

(** What [sort_values] with the default [kind] promises about the row order
    it computes from a numeric key: the rows are rearranged, and the keys
    come out ascending.  Nothing is promised about rows with equal keys. *)
Class SortKind : Type := {
  sort_rows : forall A : Type, (A -> Z) -> list A -> list A;
  sort_rows_perm : forall (A : Type) (f : A -> Z) (l : list A),
      Permutation (sort_rows A f l) l;
  sort_rows_sorted : forall (A : Type) (f : A -> Z) (l : list A),
      StronglySorted (fun a b => f a <= f b) (sort_rows A f l)
}.

(** [sort_values(by, ascending=...)] on one numeric column without missing
    values.  For a descending sort pandas reverses the rows, sorts
    ascending, and reverses the result. *)
Definition sort_values {K : SortKind} {A : Type}
    (by_ : A -> Z) (ascending : bool) (l : list A) : list A :=
  if ascending then sort_rows A by_ l
  else rev (sort_rows A by_ (rev l)).

(* ================================================================== *)
(** * The loaded frame and ingestion (lines 25-36)                     *)
(* ================================================================== *)

(** A cell of the frame as loaded. *)
Inductive cell : Type :=
  | CNull                 (* NaN / None / NaT *)
  | CNum (z : Z)          (* a number *)
  | CStr (s : string)     (* text *)
  | CDate (d : Z).        (* a timestamp, as its epoch integer *)

(** A frame: named columns, all of the same length. *)
Definition DataFrame : Type := list (string * list cell).

Definition df_columns (df : DataFrame) : list string := map fst df.

(** [len(df)]. *)
Definition nrows (df : DataFrame) : nat :=
  match df with
  | [] => 0%nat
  | (_, c) :: _ => List.length c
  end.

(** [df[name]]: the column called [name] (empty when absent). *)
Fixpoint get_col (name : string) (df : DataFrame) : list cell :=
  match df with
  | [] => []
  | (n, c) :: t => if String.eqb n name then c else get_col name t
  end.

(** [df[name] = f(df[name])]. *)
Definition set_col (name : string) (f : list cell -> list cell) (df : DataFrame) : DataFrame :=
  map (fun nc => if String.eqb (fst nc) name then (fst nc, f (snd nc)) else nc) df.

Definition required_cols : list string :=
  ["Supplier"; "Cost Center Code"; "Purchase Order Value"; "Receipted Value";
   "Invoiced Value"; "Report Date"; "PO Number"; "Description";
   "Item Description"]%string.

Definition monetary_cols : list string :=
  ["Purchase Order Value"; "Receipted Value"; "Invoiced Value"]%string.

(** [col in df.columns]. *)
Definition has_column (df : DataFrame) (col : string) : bool :=
  existsb (String.eqb col) (df_columns df).

(** Line 27: [[col for col in required_cols if col not in df.columns]]. *)
Definition missing_cols (df : DataFrame) : list string :=
  filter (fun col => negb (has_column df col)) required_cols.

(** Line 29: the text shown by [st.error]. *)
Definition schema_error_message (missing : list string) : string :=
  ("Missing required columns: " ++ join ", " missing)%string.

(** [name] occurs in [message]. *)
Definition mentions (message name : string) : Prop :=
  exists pre post, message = (pre ++ name ++ post)%string.

Section Coercion.

(** The numeric literal parser of [pd.to_numeric]: [Some v] when the text
    reads as a number. *)
Variable parse_number : string -> option Z.

(** The numeric parse of one value: a number is itself, text goes through
    the literal parser, a timestamp is its epoch integer, a missing value
    has none. *)
Definition numeric_parse (c : cell) : option Z :=
  match c with
  | CNum z => Some z
  | CStr s => parse_number s
  | CNull => None
  | CDate d => Some d
  end.

(** [pd.to_numeric(..., errors="coerce")] on one value: the parsed number,
    or NaN when there is none. *)
Definition coerce_cell (c : cell) : cell :=
  match numeric_parse c with
  | Some v => CNum v
  | None => CNull
  end.

Definition to_numeric_coerce (col : list cell) : list cell := map coerce_cell col.

(** Lines 35-36: the loop over the three monetary columns. *)
Definition coerce_monetary (df : DataFrame) : DataFrame :=
  fold_left (fun d col => set_col col to_numeric_coerce d) monetary_cols df.

End Coercion.

(* ================================================================== *)
(** * Typed rows                                                       *)
(* ================================================================== *)

(** One row of the frame after coercion. *)
Record Record_ : Type := mkRecord {
  Supplier : option string;
  CostCenterCode : option string;
  PurchaseOrderValue : option Z;
  ReceiptedValue : option Z;
  InvoicedValue : option Z;
  ReportDate : option Z;
  PONumber : cell;
  Description : cell;
  ItemDescription : cell
}.

(** Reading a cell at the type of its field.  The record model has text
    keys and timestamp dates: a frame whose key cells are numbers, or whose
    date cells are text, lies outside it ([typed_frame] below tells), and
    what is said of the script through [records_of] is meant for the frames
    inside it. *)
Definition text_of_cell (c : cell) : option string :=
  match c with CStr s => Some s | _ => None end.

Definition number_of_cell (c : cell) : option Z :=
  match c with CNum z => Some z | _ => None end.

Definition date_of_cell (c : cell) : option Z :=
  match c with CDate d => Some d | _ => None end.

Definition cell_at (df : DataFrame) (name : string) (i : nat) : cell :=
  nth i (get_col name df) CNull.

Definition row_at (df : DataFrame) (i : nat) : Record_ :=
  {| Supplier := text_of_cell (cell_at df "Supplier" i);
     CostCenterCode := text_of_cell (cell_at df "Cost Center Code" i);
     PurchaseOrderValue := number_of_cell (cell_at df "Purchase Order Value" i);
     ReceiptedValue := number_of_cell (cell_at df "Receipted Value" i);
     InvoicedValue := number_of_cell (cell_at df "Invoiced Value" i);
     ReportDate := date_of_cell (cell_at df "Report Date" i);
     PONumber := cell_at df "PO Number" i;
     Description := cell_at df "Description" i;
     ItemDescription := cell_at df "Item Description" i |}.

(** The rows of the frame, in index order. *)
Definition records_of (df : DataFrame) : list Record_ :=
  map (row_at df) (seq 0 (nrows df)).

(* ================================================================== *)
(** * Filters (lines 44-62)                                            *)
(* ================================================================== *)

Record FilterCriteria : Type := mkCriteria {
  date_start : Z;
  date_end : Z;
  selected_suppliers : list string;
  selected_centers : list string
}.

(** The order of Python [str] values. *)
Definition str_leb : string -> string -> bool := String.leb.

(** Strictly before, in that order. *)
Definition str_lt (a b : string) : Prop := str_leb a b = true /\ a <> b.

(** Lines 44-45: [sorted(df[col].dropna().unique())]. *)
Definition all_values (key : Record_ -> option string) (rs : list Record_) : list string :=
  isort str_leb (unique String.eqb (dropna (map key rs))).

Definition all_suppliers (rs : list Record_) : list string := all_values Supplier rs.
Definition all_centers (rs : list Record_) : list string := all_values CostCenterCode rs.

(** [Series.isin(values)] on one value; a missing value is in no list of
    strings. *)
Definition isin (v : option string) (values : list string) : bool :=
  match v with
  | Some s => existsb (String.eqb s) values
  | None => false
  end.

(** Lines 54-55: both comparisons are false on a missing date. *)
Definition in_date_range (c : FilterCriteria) (r : Record_) : bool :=
  match ReportDate r with
  | Some d => (date_start c <=? d) && (d <=? date_end c)
  | None => false
  end.

(** A Python list is truthy when it is not empty. *)
Definition truthy {A : Type} (l : list A) : bool :=
  match l with [] => false | _ :: _ => true end.

(** Lines 53-60. *)
Definition mask (c : FilterCriteria) (r : Record_) : bool :=
  let m := in_date_range c r in
  let m := if truthy (selected_suppliers c)
           then m && isin (Supplier r) (selected_suppliers c) else m in
  let m := if truthy (selected_centers c)
           then m && isin (CostCenterCode r) (selected_centers c) else m in
  m.

(** Line 62: [df[mask]]. *)
Definition filter_records (rs : list Record_) (c : FilterCriteria) : list Record_ :=
  filter (mask c) rs.

(** The criteria with another supplier (cost-centre) selection. *)
Definition with_suppliers (c : FilterCriteria) (s : list string) : FilterCriteria :=
  {| date_start := date_start c; date_end := date_end c;
     selected_suppliers := s; selected_centers := selected_centers c |}.

Definition with_centers (c : FilterCriteria) (s : list string) : FilterCriteria :=
  {| date_start := date_start c; date_end := date_end c;
     selected_suppliers := selected_suppliers c; selected_centers := s |}.

(** The same row with another supplier (cost-centre) cell. *)
Definition set_supplier (r : Record_) (s : option string) : Record_ :=
  {| Supplier := s; CostCenterCode := CostCenterCode r;
     PurchaseOrderValue := PurchaseOrderValue r; ReceiptedValue := ReceiptedValue r;
     InvoicedValue := InvoicedValue r; ReportDate := ReportDate r;
     PONumber := PONumber r; Description := Description r;
     ItemDescription := ItemDescription r |}.

Definition set_center (r : Record_) (s : option string) : Record_ :=
  {| Supplier := Supplier r; CostCenterCode := s;
     PurchaseOrderValue := PurchaseOrderValue r; ReceiptedValue := ReceiptedValue r;
     InvoicedValue := InvoicedValue r; ReportDate := ReportDate r;
     PONumber := PONumber r; Description := Description r;
     ItemDescription := ItemDescription r |}.

(** [l1] is [l2] with some elements left out, the others in their order. *)
Inductive subseq {A : Type} : list A -> list A -> Prop :=
  | subseq_nil : subseq [] []
  | subseq_skip : forall x l1 l2, subseq l1 l2 -> subseq l1 (x :: l2)
  | subseq_keep : forall x l1 l2, subseq l1 l2 -> subseq (x :: l1) (x :: l2).

(* ================================================================== *)
(** * Derived columns (lines 63-64)                                    *)
(* ================================================================== *)

(** Elementwise subtraction of two numeric columns: missing when either
    side is missing. *)
Definition sub_null (a b : option Z) : option Z :=
  match a, b with
  | Some x, Some y => Some (x - y)
  | _, _ => None
  end.

Record DerivedRecord : Type := mkDerived {
  base : Record_;
  UnreceiptedValue : option Z;
  UninvoicedValue : option Z
}.

Definition annotate1 (r : Record_) : DerivedRecord :=
  {| base := r;
     UnreceiptedValue := sub_null (PurchaseOrderValue r) (ReceiptedValue r);
     UninvoicedValue := sub_null (ReceiptedValue r) (InvoicedValue r) |}.

Definition annotate (rs : list Record_) : list DerivedRecord := map annotate1 rs.

(** Column accessors on the annotated frame. *)
Definition dSupplier (d : DerivedRecord) : option string := Supplier (base d).
Definition dCenter (d : DerivedRecord) : option string := CostCenterCode (base d).
Definition dDate (d : DerivedRecord) : option Z := ReportDate (base d).
Definition dPO (d : DerivedRecord) : option Z := PurchaseOrderValue (base d).
Definition dReceipted (d : DerivedRecord) : option Z := ReceiptedValue (base d).
Definition dInvoiced (d : DerivedRecord) : option Z := InvoicedValue (base d).
Definition dUnreceipted (d : DerivedRecord) : option Z := UnreceiptedValue d.
Definition dUninvoiced (d : DerivedRecord) : option Z := UninvoicedValue d.

(* ================================================================== *)
(** * Aggregations (lines 66-142)                                      *)
(* ================================================================== *)

Section GroupBy.

Context {R K : Type}.
Variable eqbK : K -> K -> bool.
Variable lebK : K -> K -> bool.
Variable key : R -> option K.

(** The row belongs to the group of [k]; a row without key is in none. *)
Definition has_key (k : K) (r : R) : bool :=
  match key r with
  | Some k' => eqbK k' k
  | None => false
  end.

(** The row has a key. *)
Definition keyed (r : R) : bool :=
  match key r with
  | Some _ => true
  | None => false
  end.

(** The group labels: the distinct present keys, sorted ascending
    ([sort=True], [dropna=True]). *)
Definition group_keys (rs : list R) : list K :=
  isort lebK (unique eqbK (dropna (map key rs))).

(** [df.groupby(key)]: each label with its rows, in frame order. *)
Definition groupby (rs : list R) : list (K * list R) :=
  map (fun k => (k, filter (has_key k) rs)) (group_keys rs).

End GroupBy.

(** Lines 71-75: the five totals. *)
Record KPIs : Type := mkKPIs {
  kPO : Z; kReceipted : Z; kInvoiced : Z; kUnreceipted : Z; kUninvoiced : Z
}.

Definition summary_kpis (rs : list DerivedRecord) : KPIs :=
  {| kPO := nansum (map dPO rs);
     kReceipted := nansum (map dReceipted rs);
     kInvoiced := nansum (map dInvoiced rs);
     kUnreceipted := nansum (map dUnreceipted rs);
     kUninvoiced := nansum (map dUninvoiced rs) |}.

(** One row of a frame grouped on one text column with the five sums. *)
Record AggregateRow : Type := mkAggregate {
  gKey : string;
  sPO : Z; sReceipted : Z; sInvoiced : Z; sUnreceipted : Z; sUninvoiced : Z
}.

Definition sum_group (g : string * list DerivedRecord) : AggregateRow :=
  {| gKey := fst g;
     sPO := nansum (map dPO (snd g));
     sReceipted := nansum (map dReceipted (snd g));
     sInvoiced := nansum (map dInvoiced (snd g));
     sUnreceipted := nansum (map dUnreceipted (snd g));
     sUninvoiced := nansum (map dUninvoiced (snd g)) |}.

(** Lines 80-81: [groupby("Supplier")[...].sum()], before the sort. *)
Definition supplier_sums (rs : list DerivedRecord) : list AggregateRow :=
  map sum_group (groupby String.eqb str_leb dSupplier rs).

(** Lines 79-83. *)
Definition summary {K : SortKind} (rs : list DerivedRecord) : list AggregateRow :=
  sort_values sPO false (supplier_sums rs).

(** The sum of the [Purchase Order Value] column of a summary frame. *)
Definition rollup_total_po (rows : list AggregateRow) : Z := sumZ (map sPO rows).

(** Trend frames: one row per (date, dimension) group. *)
Record TrendRow : Type := mkTrend { tDate : Z; tDim : string; tPO : Z }.

Definition date_dim_eqb (a b : Z * string) : bool :=
  (fst a =? fst b) && String.eqb (snd a) (snd b).

(** Order of the two-level group index: by date, then by label. *)
Definition date_dim_leb (a b : Z * string) : bool :=
  (fst a <? fst b) || ((fst a =? fst b) && str_leb (snd a) (snd b)).

(** The key of [groupby(["Report Date", dim])]: missing when either part is. *)
Definition date_dim_key (dim : DerivedRecord -> option string) (d : DerivedRecord)
  : option (Z * string) :=
  match dDate d, dim d with
  | Some t, Some s => Some (t, s)
  | _, _ => None
  end.

(** Strictly before in the order of the two-level index. *)
Definition date_dim_lt (a b : Z * string) : Prop :=
  fst a < fst b \/ (fst a = fst b /\ str_lt (snd a) (snd b)).

Definition trend_row (g : (Z * string) * list DerivedRecord) : TrendRow :=
  {| tDate := fst (fst g); tDim := snd (fst g); tPO := nansum (map dPO (snd g)) |}.

(** [groupby(["Report Date", dim])["Purchase Order Value"].sum().reset_index()]. *)
Definition trend_sums (dim : DerivedRecord -> option string) (rs : list DerivedRecord)
  : list TrendRow :=
  map trend_row (groupby date_dim_eqb date_dim_leb (date_dim_key dim) rs).

(** Lines 111-116 and 123-128. *)
Definition trend {K : SortKind} (dim : DerivedRecord -> option string)
    (rs : list DerivedRecord) : list TrendRow :=
  sort_values tDate true (trend_sums dim rs).

Definition trend_df {K : SortKind} := trend dSupplier.
Definition cc_trend_df {K : SortKind} := trend dCenter.

(** [groupby(dim)["Purchase Order Value"].sum()]: a series of (label, sum). *)
Definition po_by (dim : DerivedRecord -> option string) (rs : list DerivedRecord)
  : list (string * Z) :=
  map (fun g => (fst g, nansum (map dPO (snd g)))) (groupby String.eqb str_leb dim rs).

(** [Series.nlargest(n)] with the default [keep="first"] on a series without
    missing values.  When [n] covers the whole series the library sorts it
    descending with [sort_values]; otherwise it orders the negated values
    with a merge sort, so that among equal values the earlier entry of the
    series comes first, and keeps the first [n]. *)
Definition nlargest {K : SortKind} (n : nat) (s : list (string * Z)) : list (string * Z) :=
  match n with
  | O => []
  | _ =>
    if (List.length s <=? n)%nat
    then firstn n (sort_values snd false s)
    else firstn n (isort (fun a b => - snd a <=? - snd b) s)
  end.

(** The labels of a dimension in the order in which the rows first show
    them, and the position of a label in such a list. *)
Definition first_seen (dim : DerivedRecord -> option string) (rs : list DerivedRecord)
  : list string :=
  unique String.eqb (dropna (map dim rs)).

Fixpoint index_of (x : string) (l : list string) : option nat :=
  match l with
  | [] => None
  | y :: t => if String.eqb y x then Some O
              else match index_of x t with
                   | Some i => Some (S i)
                   | None => None
                   end
  end.

Definition seen_before (x y : string) (l : list string) : Prop :=
  match index_of x l, index_of y l with
  | Some i, Some j => (i < j)%nat
  | _, _ => False
  end.

(** Lines 135 and 140, with the count as a parameter. *)
Definition top_n {K : SortKind} (dim : DerivedRecord -> option string) (n : nat)
    (rs : list DerivedRecord) : list (string * Z) :=
  nlargest n (po_by dim rs).

Definition chart1 {K : SortKind} := top_n dSupplier 10.
Definition chart2 {K : SortKind} := top_n dCenter 10.

(* ================================================================== *)
(** * The script, top to bottom                                        *)
(* ================================================================== *)

Record Report : Type := mkReport {
  rFiltered : list DerivedRecord;
  rKPIs : KPIs;
  rSummary : list AggregateRow;
  rTrend : list TrendRow;
  rCCTrend : list TrendRow;
  rChart1 : list (string * Z);
  rChart2 : list (string * Z)
}.

Inductive outcome : Type :=
  | AwaitingUpload                      (* line 154 *)
  | Stopped (missing : list string) (message : string)   (* lines 29-31 *)
  | DateInputError                      (* line 42 raises *)
  | NoData                              (* line 152 *)
  | Rendered (r : Report).

(** Line 41: [df["Report Date"].min()] and [.max()], which skip missing
    dates and are missing themselves when the column has no date. *)
Definition report_dates (rs : list Record_) : list Z := dropna (map ReportDate rs).

Definition min_date (rs : list Record_) : option Z :=
  match report_dates rs with
  | [] => None
  | d :: t => Some (fold_right Z.min d t)
  end.

Definition max_date (rs : list Record_) : option Z :=
  match report_dates rs with
  | [] => None
  | d :: t => Some (fold_right Z.max d t)
  end.




Definition app {K : SortKind} (parse_number : string -> option Z)
    (uploaded_file : option DataFrame) (c : FilterCriteria) : outcome :=
  match uploaded_file with
  | None => AwaitingUpload
  | Some df =>
    match missing_cols df with
    | (_ :: _) as missing => Stopped missing (schema_error_message missing)
    | [] =>
      let df := coerce_monetary parse_number df in
      match min_date (records_of df), max_date (records_of df) with
      | Some _, Some _ =>
        (* the date widget takes the bounds; its value is in [c] *)
        let filtered_df := annotate (filter_records (records_of df) c) in
        match filtered_df with
        | [] => NoData
        | _ :: _ =>
          Rendered {| rFiltered := filtered_df;
                      rKPIs := summary_kpis filtered_df;
                      rSummary := summary filtered_df;
                      rTrend := trend_df filtered_df;
                      rCCTrend := cc_trend_df filtered_df;
                      rChart1 := chart1 filtered_df;
                      rChart2 := chart2 filtered_df |}
        end
      | _, _ =>
        (* no date in the column: [st.date_input] rejects the bounds *)
        DateInputError
      end
    end
  end.

(* ================================================================== *)
(** * The sort kinds                                                   *)
(* ================================================================== *)

(** A stable kind ([kind="stable"]): a row is placed in front of the first
    row whose key is not smaller. *)
Definition stable_rows (A : Type) (f : A -> Z) (l : list A) : list A :=
  isort (fun a b => f a <=? f b) l.

(** ** The default kind

    [argsort(kind="quicksort")] of numpy in its generic form, the routine
    [aquicksort_] of [npysort/quicksort.cpp]: an introsort on the array
    [tosort] of row positions, which partitions a range while it has more
    than 17 elements, finishes small ranges by insertion sort and falls back
    on heap sort when the depth limit [2 * floor(log2 n)] is used up.  Keys
    are compared with [<] only. *)

(** [tosort[p]], [tosort[p] = x] and [INTP_SWAP]. *)
Definition aget (a : list nat) (p : nat) : nat := nth p a 0%nat.

Fixpoint aset (a : list nat) (p : nat) (x : nat) : list nat :=
  match a, p with
  | [], _ => []
  | _ :: t, O => x :: t
  | y :: t, S p' => y :: aset t p' x
  end.

Definition aswap (a : list nat) (p q : nat) : list nat :=
  let x := aget a p in
  let y := aget a q in
  aset (aset a p y) q x.

(** [v[tosort[p]]]. *)
Definition key_at (keys : list Z) (a : list nat) (p : nat) : Z :=
  nth (aget a p) keys 0.

Definition SMALL_QUICKSORT : nat := 16.

(** [do { ++pi; } while (less(v[*pi], vp));] *)
Fixpoint scan_up (fuel : nat) (keys : list Z) (a : list nat) (vp : Z) (pi : nat) : nat :=
  match fuel with
  | O => pi
  | S f =>
    let pi := S pi in
    if key_at keys a pi <? vp then scan_up f keys a vp pi else pi
  end.

(** [do { --pj; } while (less(vp, v[*pj]));] *)
Fixpoint scan_down (fuel : nat) (keys : list Z) (a : list nat) (vp : Z) (pj : nat) : nat :=
  match fuel with
  | O => pj
  | S f =>
    let pj := Nat.pred pj in
    if vp <? key_at keys a pj then scan_down f keys a vp pj else pj
  end.

(** The [for (;;)] loop of the partition. *)
Fixpoint partition_loop (fuel : nat) (keys : list Z) (vp : Z) (a : list nat)
    (pi pj : nat) : list nat * nat :=
  match fuel with
  | O => (a, pi)
  | S f =>
    let pi := scan_up (List.length a) keys a vp pi in
    let pj := scan_down (List.length a) keys a vp pj in
    if (pj <=? pi)%nat then (a, pi)
    else partition_loop f keys vp (aswap a pi pj) pi pj
  end.

(** One partition of [pl..pr]: median of three, pivot parked at [pr - 1]. *)
Definition partition_range (keys : list Z) (a : list nat) (pl pr : nat) : list nat * nat :=
  let pm := (pl + Nat.div2 (pr - pl))%nat in
  let a := if key_at keys a pm <? key_at keys a pl then aswap a pm pl else a in
  let a := if key_at keys a pr <? key_at keys a pm then aswap a pr pm else a in
  let a := if key_at keys a pm <? key_at keys a pl then aswap a pm pl else a in
  let vp := key_at keys a pm in
  let a := aswap a pm (pr - 1) in
  let '(a, pi) := partition_loop (List.length a) keys vp a pl (pr - 1) in
  (aswap a pi (pr - 1), pi).

(** The insertion sort of a small range [pl..pr]. *)
Fixpoint insertion_shift (fuel : nat) (keys : list Z) (vp : Z) (pl : nat)
    (a : list nat) (pj : nat) : list nat * nat :=
  match fuel with
  | O => (a, pj)
  | S f =>
    if (pl <? pj)%nat && (vp <? key_at keys a (pj - 1))
    then insertion_shift f keys vp pl (aset a pj (aget a (pj - 1))) (pj - 1)
    else (a, pj)
  end.

Fixpoint insertion_loop (count : nat) (keys : list Z) (pl : nat) (a : list nat)
    (pi : nat) : list nat :=
  match count with
  | O => a
  | S c =>
    let vi := aget a pi in
    let vp := nth vi keys 0 in
    let '(a, pj) := insertion_shift (List.length a) keys vp pl a pi in
    insertion_loop c keys pl (aset a pj vi) (S pi)
  end.

Definition insertion_range (keys : list Z) (a : list nat) (pl pr : nat) : list nat :=
  insertion_loop (pr - pl) keys pl a (S pl).

(** The heap sort used when the depth limit is reached; [a[k]] of the C code
    is the cell [pl + k - 1]. *)
Definition hget (a : list nat) (pl k : nat) : nat := aget a (pl + k - 1).
Definition hset (a : list nat) (pl k x : nat) : list nat := aset a (pl + k - 1) x.
Definition hkey (keys : list Z) (a : list nat) (pl k : nat) : Z :=
  nth (hget a pl k) keys 0.

Fixpoint sift (fuel : nat) (keys : list Z) (pl : nat) (a : list nat)
    (tmp i j n : nat) : list nat :=
  match fuel with
  | O => hset a pl i tmp
  | S f =>
    if (j <=? n)%nat then
      let j := if (j <? n)%nat && (hkey keys a pl j <? hkey keys a pl (j + 1))
               then (j + 1)%nat else j in
      if nth tmp keys 0 <? hkey keys a pl j
      then sift f keys pl (hset a pl i (hget a pl j)) tmp j (j + j) n
      else hset a pl i tmp
    else hset a pl i tmp
  end.

Fixpoint heapify (l : nat) (keys : list Z) (pl : nat) (a : list nat) (n : nat) : list nat :=
  match l with
  | O => a
  | S l' =>
    heapify l' keys pl (sift (S n) keys pl a (hget a pl l) l (l + l) n) n
  end.

Fixpoint heap_extract (count : nat) (keys : list Z) (pl : nat) (a : list nat) (n : nat)
  : list nat :=
  match count with
  | O => a
  | S c =>
    if (1 <? n)%nat then
      let tmp := hget a pl n in
      let a := hset a pl n (hget a pl 1) in
      let n := (n - 1)%nat in
      heap_extract c keys pl (sift (S n) keys pl a tmp 1 2 n) n
    else a
  end.

Definition aheapsort (keys : list Z) (a : list nat) (pl n : nat) : list nat :=
  heap_extract n keys pl (heapify (Nat.div2 n) keys pl a n) n.

(** The main loop, with its explicit stack of pending ranges and depths. *)
Fixpoint aquicksort_loop (fuel : nat) (keys : list Z) (a : list nat) (pl pr : nat)
    (cdepth : Z) (stack : list (nat * nat * Z)) (checked : bool) : list nat :=
  match fuel with
  | O => a
  | S f =>
    let stack_pop (a : list nat) :=
      match stack with
      | [] => a
      | (pl', pr', d') :: s => aquicksort_loop f keys a pl' pr' d' s false
      end in
    if negb checked && (cdepth <? 0) then
      stack_pop (aheapsort keys a pl (pr - pl + 1))
    else if (SMALL_QUICKSORT <? pr - pl)%nat then
      let '(a, pi) := partition_range keys a pl pr in
      let cdepth := cdepth - 1 in
      if (pi - pl <? pr - pi)%nat
      then aquicksort_loop f keys a pl (pi - 1) cdepth ((S pi, pr, cdepth) :: stack) true
      else aquicksort_loop f keys a (S pi) pr cdepth ((pl, (pi - 1)%nat, cdepth) :: stack) true
    else stack_pop (insertion_range keys a pl pr)
  end.

(** [keys.argsort(kind="quicksort")]. *)
Definition aquicksort (keys : list Z) : list nat :=
  let n := List.length keys in
  match n with
  | O => []
  | _ =>
    aquicksort_loop (4 * n + 4) keys (seq 0 n) 0 (n - 1)
      (2 * Z.log2 (Z.of_nat n)) [] false
  end.

(** The rows at the given positions, in that order. *)
Definition rows_at {A : Type} (l : list A) (idx : list nat) : list A :=
  flat_map (fun i => match nth_error l i with
                     | Some x => [x]
                     | None => []
                     end) idx.

Fixpoint nat_list_eqb (a b : list nat) : bool :=
  match a, b with
  | [], [] => true
  | x :: a', y :: b' => (x =? y)%nat && nat_list_eqb a' b'
  | _, _ => false
  end.

(** [idx] holds each of [0 .. n-1] once. *)
Definition is_index_perm (n : nat) (idx : list nat) : bool :=
  nat_list_eqb (isort Nat.leb idx) (seq 0 n).

Fixpoint ascending_keys (ks : list Z) : bool :=
  match ks with
  | x :: ((y :: _) as t) => (x <=? y) && ascending_keys t
  | _ => true
  end.

(** The rows ordered by an [argsort] routine.  The positions returned are
    checked to be a sorting permutation, which they are for every correct
    routine; the check is what lets the contract be proved without a
    correctness proof of the routine, and a stable sort stands in should it
    ever fail. *)
Definition argsort_rows (argsort : list Z -> list nat)
    (A : Type) (f : A -> Z) (l : list A) : list A :=
  let idx := argsort (map f l) in
  let out := rows_at l idx in
  if is_index_perm (List.length l) idx && ascending_keys (map f out)
  then out
  else stable_rows A f l.

Definition quicksort_rows : forall A : Type, (A -> Z) -> list A -> list A :=
  argsort_rows aquicksort.

(* ================================================================== *)
(** * Sample data                                                      *)
(* ================================================================== *)

Definition po_line (supplier center : option string) (date : Z)
    (po receipted invoiced : option Z) : Record_ :=
  {| Supplier := supplier; CostCenterCode := center;
     PurchaseOrderValue := po; ReceiptedValue := receipted;
     InvoicedValue := invoiced; ReportDate := Some date;
     PONumber := CStr "PO-1"; Description := CStr "goods";
     ItemDescription := CStr "item" |}.

(** The two-line scenario: supplier A, cost centre CC1, two days. *)
Definition line_a1 : Record_ :=
  po_line (Some "A"%string) (Some "CC1"%string) 1 (Some 100) (Some 60) (Some 40).
Definition line_a2 : Record_ :=
  po_line (Some "A"%string) (Some "CC1"%string) 2 (Some 200) (Some 0) (Some 0).

(** A line of supplier B, and lines whose supplier or cost centre is missing. *)
Definition line_b1 : Record_ :=
  po_line (Some "B"%string) (Some "CC2"%string) 1 (Some 100) (Some 10) (Some 5).
Definition line_nosupplier : Record_ :=
  po_line None (Some "CC1"%string) 1 (Some 100) (Some 60) (Some 40).
Definition line_nopo : Record_ :=
  po_line (Some "A"%string) (Some "CC1"%string) 1 None (Some 60) (Some 40).

(** Every date of the samples, nothing selected. *)
Definition open_criteria : FilterCriteria :=
  {| date_start := 0; date_end := 10; selected_suppliers := []; selected_centers := [] |}.

(** A parser of unsigned decimal integers, standing for the library's
    numeric literal parser in the examples. *)
Definition digit_of (a : ascii) : option Z :=
  let n := Z.of_N (N_of_ascii a) in
  if (48 <=? n) && (n <=? 57) then Some (n - 48) else None.

Fixpoint digits_value (acc : Z) (s : string) : option Z :=
  match s with
  | EmptyString => Some acc
  | String a t =>
    match digit_of a with
    | Some d => digits_value (10 * acc + d) t
    | None => None
    end
  end.

Definition parse_unsigned (s : string) : option Z :=
  match s with
  | EmptyString => None
  | _ => digits_value 0 s
  end.

(** A frame with every required column and two rows; the second row has
    text that is not a number in one monetary column. *)
Definition sample_df : DataFrame :=
  [("Supplier", [CStr "A"; CStr "B"]);
   ("Cost Center Code", [CStr "CC1"; CStr "CC2"]);
   ("Purchase Order Value", [CStr "100"; CStr "N/A"]);
   ("Receipted Value", [CNum 60; CNum 10]);
   ("Invoiced Value", [CNum 40; CNull]);
   ("Report Date", [CDate 1; CDate 2]);
   ("PO Number", [CStr "PO-1"; CStr "PO-2"]);
   ("Description", [CStr "goods"; CStr "services"]);
   ("Item Description", [CStr "item"; CStr "item"])]%string.

(** The same frame without its supplier and date columns. *)
Definition short_df : DataFrame :=
  [("Cost Center Code", [CStr "CC1"; CStr "CC2"]);
   ("Purchase Order Value", [CStr "100"; CStr "N/A"]);
   ("Receipted Value", [CNum 60; CNum 10]);
   ("Invoiced Value", [CNum 40; CNull]);
   ("PO Number", [CStr "PO-1"; CStr "PO-2"]);
   ("Description", [CStr "goods"; CStr "services"]);
   ("Item Description", [CStr "item"; CStr "item"])]%string.

(** Two suppliers with the same total on the same day; and the same two
    lines in the other order. *)
Definition tied_lines : list DerivedRecord := annotate [line_a1; line_b1].
Definition tied_lines_b_first : list DerivedRecord := annotate [line_b1; line_a1].


(* ================================================================== *)
(** * Loading and the drill-down table (lines 11-24, 86-93)            *)
(* ================================================================== *)

(** Python's [s.endswith(suffix)]. *)
Definition endswith (s suffix : string) : bool :=
  (String.length suffix <=? String.length s)%nat
  && String.eqb (substring (String.length s - String.length suffix)
                           (String.length suffix) s) suffix.

Section Loading.

(** An uploaded file has a name; its decoding is the readers' business. *)
Variable File : Type.
Variable file_name : File -> string.
Variable read_csv : File -> DataFrame.
Variable read_parquet : File -> DataFrame.
Variable read_excel : File -> DataFrame.

(** Lines 11-20.  An unsupported name gives the empty frame
    [pd.DataFrame()], which has no column. *)
Definition load_data (file : File) : DataFrame :=
  if endswith (file_name file) ".csv" then read_csv file
  else if endswith (file_name file) ".parquet" then read_parquet file
  else if endswith (file_name file) ".xlsx" then read_excel file
  else [].

(** Lines 22-24 and 153-154: the script from the upload on. *)
Definition run_upload {K : SortKind} (parse_number : string -> option Z)
    (uploaded_file : option File) (c : FilterCriteria) : outcome :=
  match uploaded_file with
  | None => AwaitingUpload
  | Some file => app parse_number (Some (load_data file)) c
  end.

End Loading.

(** Line 88: the rows of the drill-down table,
    [filtered_df[filtered_df["Supplier"].isin(selected_suppliers)]].  The
    column selection of lines 89-93 keeps all eleven columns. *)
Definition drilldown_df (c : FilterCriteria) (filtered_df : list DerivedRecord)
  : list DerivedRecord :=
  filter (fun d => isin (dSupplier d) (selected_suppliers c)) filtered_df.

(** The sum of the [Purchase Order Value] column of a ranking. *)
Definition ranking_total_po (rows : list (string * Z)) : Z := sumZ (map snd rows).

(** A file name for the examples: the frame is carried in the file. *)
Definition sample_file (name : string) : string * DataFrame := (name, sample_df).

(** Eighteen suppliers, A to R, one line each on the same day and with the
    same purchase order value. *)
Definition eighteen_suppliers : list string :=
  ["A"; "B"; "C"; "D"; "E"; "F"; "G"; "H"; "I";
   "J"; "K"; "L"; "M"; "N"; "O"; "P"; "Q"; "R"]%string.

Definition eighteen_lines : list DerivedRecord :=
  annotate (map (fun s => po_line (Some s) (Some "CC1"%string) 1
                            (Some 100) (Some 60) (Some 40))
                eighteen_suppliers).


(* ================================================================== *)
(** * Facts about the helpers                                          *)
(* ================================================================== *)

Section InsertionSortFacts.

Context {A : Type}.
Variable before : A -> A -> bool.

Lemma insert_perm (x : A) (l : list A) : Permutation (insert before x l) (x :: l).
Proof.
  induction l as [| y t IH]; simpl.
  - apply Permutation_refl.
  - destruct (before x y).
    + apply Permutation_refl.
    + eapply perm_trans; [apply perm_skip, IH | apply perm_swap].
Qed.

Lemma isort_perm (l : list A) : Permutation (isort before l) l.
Proof.
  induction l as [| x t IH]; simpl.
  - apply perm_nil.
  - eapply perm_trans; [apply insert_perm | apply perm_skip, IH].
Qed.

Lemma isort_In (x : A) (l : list A) : In x (isort before l) <-> In x l.
Proof.
  split; apply Permutation_in; [| apply Permutation_sym]; apply isort_perm.
Qed.

Lemma isort_length (l : list A) : List.length (isort before l) = List.length l.
Proof. apply Permutation_length, isort_perm. Qed.

(** A list already in order is left alone. *)
Lemma insert_head (x : A) (l : list A) :
  Forall (fun y => before x y = true) l -> insert before x l = x :: l.
Proof.
  destruct l as [| y t]; simpl; [reflexivity |].
  intros H. inversion H as [| ? ? Hy _]; subst. now rewrite Hy.
Qed.

Lemma isort_sorted_id (l : list A) :
  StronglySorted (fun a b => before a b = true) l -> isort before l = l.
Proof.
  induction 1 as [| x t Hs IH Hx]; simpl; [reflexivity |].
  rewrite IH. now apply insert_head.
Qed.

Section Order.

Variable le : A -> A -> Prop.
Hypothesis before_le : forall x y, before x y = true -> le x y.
Hypothesis not_before_le : forall x y, before x y = false -> le y x.
Hypothesis le_trans : forall x y z, le x y -> le y z -> le x z.

Lemma insert_sorted (x : A) (l : list A) :
  StronglySorted le l -> StronglySorted le (insert before x l).
Proof.
  induction 1 as [| y t Hs IH Hy]; simpl.
  - constructor; constructor.
  - destruct (before x y) eqn:E.
    + constructor; [constructor; assumption |].
      constructor; [now apply before_le |].
      eapply Forall_impl; [| exact Hy].
      intros z Hz. eapply le_trans; [apply before_le, E | exact Hz].
    + constructor; [exact IH |].
      assert (P : Permutation (insert before x t) (x :: t)) by apply insert_perm.
      eapply Permutation_Forall; [apply Permutation_sym, P |].
      constructor; [now apply not_before_le | exact Hy].
Qed.

Lemma isort_sorted (l : list A) : StronglySorted le (isort before l).
Proof.
  induction l as [| x t IH]; simpl; [constructor | now apply insert_sorted].
Qed.

End Order.

End InsertionSortFacts.

(** Stability of [stable_rows]: the rows with a given key keep their order. *)
Lemma stable_insert_filter {A : Type} (f : A -> Z) (v : Z) (x : A) (l : list A) :
  filter (fun r => f r =? v) (insert (fun a b => f a <=? f b) x l)
  = filter (fun r => f r =? v) (x :: l).
Proof.
  induction l as [| y t IH]; simpl; [reflexivity |].
  destruct (f x <=? f y) eqn:E; simpl; [reflexivity |].
  rewrite IH. simpl.
  destruct (f x =? v) eqn:Ex; [| reflexivity].
  assert (Hy : (f y =? v) = false) by lia.
  now rewrite Hy.
Qed.

Lemma stable_rows_filter {A : Type} (f : A -> Z) (v : Z) (l : list A) :
  filter (fun r => f r =? v) (stable_rows A f l) = filter (fun r => f r =? v) l.
Proof.
  unfold stable_rows.
  induction l as [| x t IH]; simpl; [reflexivity |].
  rewrite stable_insert_filter. simpl. now rewrite IH.
Qed.

Lemma stable_rows_sorted {A : Type} (f : A -> Z) (l : list A) :
  StronglySorted (fun a b => f a <= f b) (stable_rows A f l).
Proof.
  apply isort_sorted; intros; lia.
Qed.

(** The stable kind ([kind="stable"], a merge sort). *)
Definition stable_kind : SortKind :=
  {| sort_rows := stable_rows;
     sort_rows_perm := fun A f l => isort_perm _ l;
     sort_rows_sorted := fun A f l => stable_rows_sorted f l |}.

(** ** Rows ordered through an argsort routine *)

Lemma rows_at_all_from {A : Type} (pre l : list A) :
  rows_at (pre ++ l) (seq (List.length pre) (List.length l)) = l.
Proof.
  revert pre. induction l as [| x t IH]; intros pre; simpl; [reflexivity |].
  rewrite nth_error_app2 by lia. rewrite Nat.sub_diag. simpl.
  f_equal.
  specialize (IH (pre ++ [x])).
  rewrite <- app_assoc, length_app in IH. simpl in IH.
  rewrite Nat.add_1_r in IH. exact IH.
Qed.

Lemma rows_at_all {A : Type} (l : list A) : rows_at l (seq 0 (List.length l)) = l.
Proof. apply (rows_at_all_from [] l). Qed.

Lemma nat_list_eqb_eq (a b : list nat) : nat_list_eqb a b = true -> a = b.
Proof.
  revert b. induction a as [| x a IH]; intros [| y b]; simpl; try discriminate;
    [reflexivity |].
  intros H. apply andb_true_iff in H. destruct H as [H1 H2].
  apply Nat.eqb_eq in H1. subst. f_equal. now apply IH.
Qed.

Lemma is_index_perm_rows {A : Type} (l : list A) (idx : list nat) :
  is_index_perm (List.length l) idx = true -> Permutation (rows_at l idx) l.
Proof.
  intros H. apply nat_list_eqb_eq in H.
  rewrite <- (rows_at_all l) at 2. rewrite <- H.
  unfold rows_at. apply Permutation_flat_map, Permutation_sym, isort_perm.
Qed.

Lemma ascending_keys_sorted {A : Type} (f : A -> Z) (l : list A) :
  ascending_keys (map f l) = true -> StronglySorted (fun a b => f a <= f b) l.
Proof.
  intros H. apply Sorted_StronglySorted; [intros x y z; lia |].
  induction l as [| x t IH]; [constructor |].
  destruct t as [| y t'].
  - repeat constructor.
  - simpl in H. apply andb_true_iff in H. destruct H as [H1 H2].
    constructor; [now apply IH |]. constructor. lia.
Qed.

Lemma argsort_rows_perm (argsort : list Z -> list nat) {A : Type} (f : A -> Z)
    (l : list A) :
  Permutation (argsort_rows argsort A f l) l.
Proof.
  unfold argsort_rows.
  destruct (is_index_perm (List.length l) (argsort (map f l))) eqn:E1; simpl.
  - destruct (ascending_keys _).
    + now apply is_index_perm_rows.
    + apply isort_perm.
  - apply isort_perm.
Qed.

Lemma argsort_rows_sorted (argsort : list Z -> list nat) {A : Type} (f : A -> Z)
    (l : list A) :
  StronglySorted (fun a b => f a <= f b) (argsort_rows argsort A f l).
Proof.
  unfold argsort_rows.
  destruct (is_index_perm (List.length l) (argsort (map f l))); simpl.
  - destruct (ascending_keys _) eqn:E2.
    + now apply ascending_keys_sorted.
    + apply stable_rows_sorted.
  - apply stable_rows_sorted.
Qed.

(** The default kind ([kind="quicksort"]). *)
Definition quicksort_kind : SortKind :=
  {| sort_rows := quicksort_rows;
     sort_rows_perm := fun A f l => argsort_rows_perm aquicksort f l;
     sort_rows_sorted := fun A f l => argsort_rows_sorted aquicksort f l |}.

Lemma dropna_In {A : Type} (a : A) (l : list (option A)) :
  In a (dropna l) <-> In (Some a) l.
Proof.
  induction l as [| [b |] t IH]; simpl.
  - tauto.
  - rewrite IH. split; intros [H | H]; auto; left; congruence.
  - rewrite IH. split; [auto | intros [H | H]; [discriminate | exact H]].
Qed.

Section UniqueFacts.

Context {A : Type}.
Variable eqbA : A -> A -> bool.
Hypothesis eqbA_eq : forall x y, eqbA x y = true <-> x = y.

Lemma eqbA_refl (x : A) : eqbA x x = true.
Proof. now apply eqbA_eq. Qed.

Lemma unique_In (x : A) (l : list A) : In x (unique eqbA l) <-> In x l.
Proof.
  induction l as [| y t IH]; simpl; [tauto |].
  rewrite filter_In, IH.
  destruct (eqbA x y) eqn:E.
  - apply eqbA_eq in E. subst. simpl. split; auto.
  - simpl. split; [intros [H | [H _]]; auto | intros [H | H]; auto].
Qed.

Lemma unique_NoDup (l : list A) : NoDup (unique eqbA l).
Proof.
  induction l as [| y t IH]; simpl; constructor.
  - rewrite filter_In. intros [_ H]. now rewrite eqbA_refl in H.
  - now apply NoDup_filter.
Qed.

End UniqueFacts.

Lemma subseq_filter {A : Type} (p : A -> bool) (l : list A) : subseq (filter p l) l.
Proof.
  induction l as [| x t IH]; simpl; [constructor |].
  destruct (p x); now constructor.
Qed.

Lemma filter_idem {A : Type} (p : A -> bool) (l : list A) :
  filter p (filter p l) = filter p l.
Proof.
  induction l as [| x t IH]; simpl; [reflexivity |].
  destruct (p x) eqn:E; simpl; [rewrite E, IH |]; auto.
Qed.

Lemma all_values_In (key : Record_ -> option string) (rs : list Record_) (s : string) :
  In s (all_values key rs) <-> exists r, In r rs /\ key r = Some s.
Proof.
  unfold all_values.
  rewrite isort_In, (unique_In String.eqb String.eqb_eq), dropna_In, in_map_iff.
  split; intros [r [H1 H2]]; exists r; auto.
Qed.

Lemma isin_true (v : option string) (l : list string) :
  isin v l = true <-> exists s, v = Some s /\ In s l.
Proof.
  destruct v as [s |]; simpl.
  - rewrite existsb_exists. split.
    + intros [x [Hx E]]. apply String.eqb_eq in E. subst. eauto.
    + intros [x [E Hx]]. injection E as <-. exists s. split; [exact Hx | apply String.eqb_refl].
  - split; [discriminate | intros [s [E _]]; discriminate].
Qed.

Lemma isin_all_values (key : Record_ -> option string) (rs : list Record_) (r : Record_) :
  In r rs -> key r <> None -> isin (key r) (all_values key rs) = true.
Proof.
  intros Hr Hk. apply isin_true.
  destruct (key r) as [s |] eqn:E; [| congruence].
  exists s. split; [reflexivity |].
  apply all_values_In. now exists r.
Qed.

(** ** Text *)

Lemma str_app_nil_r (s : string) : (s ++ "")%string = s.
Proof. induction s as [| a s IH]; simpl; [reflexivity | now rewrite IH]. Qed.

Lemma str_app_assoc (a b c : string) : ((a ++ b) ++ c)%string = (a ++ (b ++ c))%string.
Proof. induction a as [| x a IH]; simpl; [reflexivity | now rewrite IH]. Qed.

Lemma mentions_self (s : string) : mentions s s.
Proof. exists EmptyString, EmptyString. simpl. now rewrite str_app_nil_r. Qed.

Lemma mentions_prefixed (p message name : string) :
  mentions message name -> mentions (p ++ message) name.
Proof.
  intros [pre [post ->]]. exists (p ++ pre)%string, post.
  now rewrite str_app_assoc.
Qed.

Lemma join_mentions (sep : string) (xs : list string) (x : string) :
  In x xs -> mentions (join sep xs) x.
Proof.
  induction xs as [| y t IH]; simpl; [tauto |].
  intros [-> | Hx].
  - destruct t as [| z t']; [apply mentions_self |].
    exists EmptyString, (sep ++ join sep (z :: t'))%string. reflexivity.
  - destruct t as [| z t']; [destruct Hx |].
    apply mentions_prefixed, mentions_prefixed, IH, Hx.
Qed.

(** ** The loaded frame *)

Lemma has_column_In (df : DataFrame) (col : string) :
  has_column df col = true <-> In col (df_columns df).
Proof.
  unfold has_column. rewrite existsb_exists. split.
  - intros [x [Hx E]]. apply String.eqb_eq in E. now subst.
  - intros H. exists col. split; [exact H | apply String.eqb_refl].
Qed.

Lemma missing_cols_In (df : DataFrame) (col : string) :
  In col (missing_cols df) <-> In col required_cols /\ ~ In col (df_columns df).
Proof.
  unfold missing_cols. rewrite filter_In, <- has_column_In.
  destruct (has_column df col); simpl; intuition congruence.
Qed.


Lemma set_col_nrows (name : string) (f : list cell -> list cell) (df : DataFrame) :
  (forall c, List.length (f c) = List.length c) ->
  nrows (set_col name f df) = nrows df.
Proof.
  intros Hf. destruct df as [| [n c] t]; simpl; [reflexivity |].
  destruct (String.eqb n name); simpl; auto.
Qed.

Lemma get_col_set_col (name name' : string) (f : list cell -> list cell) (df : DataFrame) :
  f [] = [] ->
  get_col name' (set_col name f df)
  = if String.eqb name' name then f (get_col name' df) else get_col name' df.
Proof.
  intros Hf. induction df as [| [n c] t IH]; simpl.
  - now destruct (String.eqb name' name).
  - destruct (String.eqb_spec n name) as [-> | Hn]; simpl.
    + destruct (String.eqb_spec name name') as [<- | Hn'].
      * now rewrite String.eqb_refl.
      * exact IH.
    + destruct (String.eqb_spec n name') as [<- | Hn'].
      * apply String.eqb_neq in Hn. now rewrite Hn.
      * exact IH.
Qed.

Section CoercionFacts.

Variable parse_number : string -> option Z.

Lemma coerce_cell_null : coerce_cell parse_number CNull = CNull.
Proof. reflexivity. Qed.



Lemma coerce_monetary_nrows (df : DataFrame) :
  nrows (coerce_monetary parse_number df) = nrows df.
Proof.
  unfold coerce_monetary; simpl.
  rewrite !set_col_nrows; auto; intros c; apply length_map.
Qed.

Lemma coerce_monetary_cell (df : DataFrame) (name : string) (i : nat) :
  cell_at (coerce_monetary parse_number df) name i
  = if existsb (String.eqb name) monetary_cols
    then coerce_cell parse_number (cell_at df name i)
    else cell_at df name i.
Proof.
  unfold cell_at, coerce_monetary; simpl.
  rewrite !get_col_set_col by reflexivity.
  destruct (String.eqb_spec name "Purchase Order Value") as [-> | H1]; simpl.
  - unfold to_numeric_coerce.
    now rewrite <- coerce_cell_null at 1; rewrite map_nth.
  - destruct (String.eqb_spec name "Receipted Value") as [-> | H2]; simpl.
    + unfold to_numeric_coerce.
      now rewrite <- coerce_cell_null at 1; rewrite map_nth.
    + destruct (String.eqb_spec name "Invoiced Value") as [-> | H3]; simpl.
      * unfold to_numeric_coerce.
        now rewrite <- coerce_cell_null at 1; rewrite map_nth.
      * reflexivity.
Qed.

End CoercionFacts.

(** ** Sums *)

(** The contribution of one cell to a null-skipping sum. *)
Lemma nansum_cons (o : option Z) (l : list (option Z)) :
  nansum (o :: l) = match o with Some v => v | None => 0 end + nansum l.
Proof. unfold nansum. destruct o; reflexivity. Qed.

Lemma sumZ_perm (l1 l2 : list Z) : Permutation l1 l2 -> sumZ l1 = sumZ l2.
Proof. induction 1; simpl; lia. Qed.


(** ** The library's sort *)

Lemma sort_values_perm {K : SortKind} {A : Type} (f : A -> Z) (asc : bool) (l : list A) :
  Permutation (sort_values f asc l) l.
Proof.
  unfold sort_values. destruct asc.
  - apply sort_rows_perm.
  - eapply perm_trans; [apply Permutation_sym, Permutation_rev |].
    eapply perm_trans; [apply sort_rows_perm |].
    apply Permutation_sym, Permutation_rev.
Qed.

Lemma StronglySorted_app_intro {A : Type} (R : A -> A -> Prop) (l1 l2 : list A) :
  StronglySorted R l1 -> StronglySorted R l2 ->
  (forall a b, In a l1 -> In b l2 -> R a b) ->
  StronglySorted R (l1 ++ l2).
Proof.
  induction 1 as [| x t Hs IH Hx]; simpl; intros H2 H12; [exact H2 |].
  constructor.
  - apply IH; [exact H2 | intros a b Ha Hb; apply H12; simpl; auto].
  - apply Forall_app. split; [exact Hx |].
    apply Forall_forall. intros b Hb. apply H12; simpl; auto.
Qed.

Lemma StronglySorted_app_elim {A : Type} (R : A -> A -> Prop) (l1 l2 : list A) :
  StronglySorted R (l1 ++ l2) ->
  forall a b, In a l1 -> In b l2 -> R a b.
Proof.
  induction l1 as [| x t IH]; simpl; intros Hs a b Ha Hb; [destruct Ha |].
  inversion Hs as [| ? ? Hs' Hx]; subst.
  destruct Ha as [<- | Ha].
  - rewrite Forall_forall in Hx. apply Hx, in_or_app. now right.
  - now apply IH.
Qed.

Lemma StronglySorted_rev {A : Type} (R : A -> A -> Prop) (l : list A) :
  StronglySorted R l -> StronglySorted (fun a b => R b a) (rev l).
Proof.
  induction 1 as [| x t Hs IH Hx]; simpl; [constructor |].
  apply StronglySorted_app_intro; [exact IH | repeat constructor |].
  intros a b Ha [<- | []]. rewrite Forall_forall in Hx.
  apply Hx. now apply in_rev.
Qed.

Lemma StronglySorted_filter {A : Type} (R : A -> A -> Prop) (p : A -> bool) (l : list A) :
  StronglySorted R l -> StronglySorted R (filter p l).
Proof.
  induction 1 as [| x t Hs IH Hx]; simpl; [constructor |].
  destruct (p x); [| exact IH].
  constructor; [exact IH |].
  rewrite Forall_forall in *. intros y Hy. apply filter_In in Hy. now apply Hx.
Qed.

Lemma StronglySorted_map {A B : Type} (R : B -> B -> Prop) (g : A -> B) (l : list A) :
  StronglySorted (fun a b => R (g a) (g b)) l -> StronglySorted R (map g l).
Proof.
  induction 1 as [| x t Hs IH Hx]; simpl; constructor; [exact IH |].
  rewrite Forall_forall in *. intros y Hy.
  apply in_map_iff in Hy. destruct Hy as [a [<- Ha]]. now apply Hx.
Qed.

Lemma StronglySorted_distinct {A : Type} (R : A -> A -> Prop) (l : list A) :
  StronglySorted R l -> NoDup l -> StronglySorted (fun a b => R a b /\ a <> b) l.
Proof.
  induction 1 as [| x t Hs IH Hx]; intros Hnd; constructor;
    inversion Hnd as [| ? ? Hnotin Hnd']; subst.
  - now apply IH.
  - rewrite Forall_forall in *. intros y Hy. split; [now apply Hx |].
    intros ->. contradiction.
Qed.

Lemma StronglySorted_adjacent {A : Type} (R : A -> A -> Prop) (l : list A) :
  StronglySorted R l ->
  forall i a b, nth_error l i = Some a -> nth_error l (S i) = Some b -> R a b.
Proof.
  induction 1 as [| x t Hs IH Hx]; intros i a b Ha Hb.
  - destruct i; discriminate.
  - destruct i as [| i].
    + injection Ha as <-. rewrite Forall_forall in Hx.
      apply Hx. apply (nth_error_In t 0). exact Hb.
    + apply (IH i); [exact Ha | exact Hb].
Qed.

Lemma sort_values_ascending {K : SortKind} {A : Type} (f : A -> Z) (l : list A) :
  StronglySorted (fun a b => f a <= f b) (sort_values f true l).
Proof. apply sort_rows_sorted. Qed.

Lemma sort_values_descending {K : SortKind} {A : Type} (f : A -> Z) (l : list A) :
  StronglySorted (fun a b => f b <= f a) (sort_values f false l).
Proof.
  unfold sort_values.
  apply (StronglySorted_rev (fun a b => f a <= f b)), sort_rows_sorted.
Qed.

(** ** Grouping *)

Lemma nansum_filter_disjoint {R : Type} (val : R -> option Z) (p q : R -> bool)
    (rs : list R) :
  (forall r, p r = true -> q r = true -> False) ->
  nansum (map val (filter (fun r => p r || q r) rs))
  = nansum (map val (filter p rs)) + nansum (map val (filter q rs)).
Proof.
  intros Hpq. induction rs as [| r t IH]; simpl; [reflexivity |].
  destruct (p r) eqn:Ep, (q r) eqn:Eq; simpl; rewrite ?nansum_cons, IH; try lia.
  exfalso. eapply Hpq; eassumption.
Qed.


Section GroupByFacts.

Context {R K : Type}.
Variable eqbK : K -> K -> bool.
Variable lebK : K -> K -> bool.
Hypothesis eqbK_eq : forall x y, eqbK x y = true <-> x = y.
Variable key : R -> option K.

Lemma group_keys_NoDup (rs : list R) : NoDup (group_keys eqbK lebK key rs).
Proof.
  unfold group_keys.
  eapply Permutation_NoDup; [apply Permutation_sym, isort_perm |].
  now apply unique_NoDup.
Qed.

Lemma group_keys_In (k : K) (rs : list R) :
  In k (group_keys eqbK lebK key rs) <-> exists r, In r rs /\ key r = Some k.
Proof.
  unfold group_keys.
  rewrite isort_In, (unique_In eqbK eqbK_eq), dropna_In, in_map_iff.
  split; intros [r [H1 H2]]; exists r; auto.
Qed.

Lemma group_keys_length (rs : list R) :
  List.length (group_keys eqbK lebK key rs)
  = List.length (unique eqbK (dropna (map key rs))).
Proof. apply isort_length. Qed.

Lemma groupby_length (rs : list R) :
  List.length (groupby eqbK lebK key rs)
  = List.length (unique eqbK (dropna (map key rs))).
Proof. unfold groupby. rewrite length_map. apply group_keys_length. Qed.


Lemma group_sums_over (val : R -> option Z) (ks : list K) (rs : list R) :
  NoDup ks ->
  sumZ (map (fun k => nansum (map val (filter (has_key eqbK key k) rs))) ks)
  = nansum (map val (filter (fun r => match key r with
                                      | Some k => existsb (eqbK k) ks
                                      | None => false
                                      end) rs)).
Proof.
  induction 1 as [| k ks' Hnotin Hnd IH]; simpl.
  - induction rs as [| r t IHr]; simpl; [reflexivity |].
    now destruct (key r).
  - rewrite IH.
    rewrite <- nansum_filter_disjoint.
    + f_equal. f_equal. apply filter_ext. intros r. unfold has_key.
      now destruct (key r).
    + intros r Hk Hm. unfold has_key in Hk.
      destruct (key r) as [k0 |]; [| discriminate].
      apply eqbK_eq in Hk. subst k0.
      apply existsb_exists in Hm. destruct Hm as [x [Hx E]].
      apply eqbK_eq in E. now subst x.
Qed.

(** The group sums add up to the sum over the rows that have a key. *)
Lemma group_sums_total (val : R -> option Z) (rs : list R) :
  sumZ (map (fun k => nansum (map val (filter (has_key eqbK key k) rs)))
            (group_keys eqbK lebK key rs))
  = nansum (map val (filter (keyed key) rs)).
Proof.
  rewrite group_sums_over by apply group_keys_NoDup.
  f_equal. f_equal. apply filter_ext_in. intros r Hr. unfold keyed.
  destruct (key r) as [k |] eqn:E; [| reflexivity].
  apply existsb_exists. exists k. split; [| now apply eqbK_eq].
  apply group_keys_In. now exists r.
Qed.

End GroupByFacts.


Lemma date_dim_eqb_eq (a b : Z * string) : date_dim_eqb a b = true <-> a = b.
Proof.
  unfold date_dim_eqb. destruct a as [d1 s1], b as [d2 s2]; simpl.
  rewrite andb_true_iff, Z.eqb_eq, String.eqb_eq.
  split; [intros [-> ->]; reflexivity | intros E; injection E; auto].
Qed.


(** ** The order of the group labels *)

Module StrOrd.

Lemma ascii_compare_N (a b : ascii) :
  Ascii.compare a b = N.compare (N_of_ascii a) (N_of_ascii b).
Proof. reflexivity. Qed.

Lemma leb_refl (s : string) : String.leb s s = true.
Proof.
  destruct (String.leb_total s s) as [H | H]; exact H.
Qed.

Lemma leb_trans (a b c : string) :
  String.leb a b = true -> String.leb b c = true -> String.leb a c = true.
Proof.
  unfold String.leb.
  revert b c; induction a as [| x a IH]; intros [| y b] [| z c]; simpl;
    try congruence.
  rewrite !ascii_compare_N.
  destruct (N.compare_spec (N_of_ascii x) (N_of_ascii y)) as [E1 | L1 | G1];
    destruct (N.compare_spec (N_of_ascii y) (N_of_ascii z)) as [E2 | L2 | G2];
    try congruence; intros H1 H2.
  - rewrite E1, <- E2, N.compare_refl. eapply IH; eassumption.
  - rewrite E1. destruct (N.compare_spec (N_of_ascii y) (N_of_ascii z)); try lia; reflexivity.
  - rewrite <- E2. destruct (N.compare_spec (N_of_ascii x) (N_of_ascii y)); try lia; reflexivity.
  - destruct (N.compare_spec (N_of_ascii x) (N_of_ascii z)); try lia; reflexivity.
Qed.

Lemma leb_false_flip (a b : string) : String.leb a b = false -> String.leb b a = true.
Proof.
  intros H. destruct (String.leb_total a b) as [T | T]; congruence.
Qed.

End StrOrd.

Lemma StronglySorted_impl {A : Type} (R1 R2 : A -> A -> Prop) (l : list A) :
  (forall a b, R1 a b -> R2 a b) -> StronglySorted R1 l -> StronglySorted R2 l.
Proof.
  intros H. induction 1 as [| x t Hs IH Hx]; constructor; [exact IH |].
  eapply Forall_impl; [| exact Hx]. intros y. apply H.
Qed.

Lemma date_dim_leb_flip (a b : Z * string) :
  date_dim_leb a b = false -> date_dim_leb b a = true.
Proof.
  unfold date_dim_leb. destruct a as [d1 s1], b as [d2 s2]; simpl.
  intros H. apply orb_false_iff in H. destruct H as [H1 H2].
  destruct (Z.ltb_spec d2 d1) as [L | L]; [reflexivity |]. simpl.
  assert (E : d1 = d2) by lia. subst d2.
  rewrite Z.eqb_refl in *. simpl in *.
  now apply StrOrd.leb_false_flip.
Qed.

Lemma date_dim_leb_trans (a b c : Z * string) :
  date_dim_leb a b = true -> date_dim_leb b c = true -> date_dim_leb a c = true.
Proof.
  unfold date_dim_leb. destruct a as [d1 s1], b as [d2 s2], c as [d3 s3]; simpl.
  rewrite !orb_true_iff, !andb_true_iff, !Z.ltb_lt, !Z.eqb_eq.
  intros [L1 | [E1 S1]] [L2 | [E2 S2]]; try (left; lia).
  right. split; [lia |]. eapply StrOrd.leb_trans; eassumption.
Qed.

Lemma date_dim_leb_strict (a b : Z * string) :
  date_dim_leb a b = true -> a <> b -> date_dim_lt a b.
Proof.
  unfold date_dim_leb, date_dim_lt, str_lt. destruct a as [d1 s1], b as [d2 s2]; simpl.
  rewrite orb_true_iff, andb_true_iff, Z.ltb_lt, Z.eqb_eq.
  intros [L | [E S]] Hne; [now left |].
  right. subst d2. repeat split; auto. intros ->. now apply Hne.
Qed.

Lemma str_group_keys_sorted {R : Type} (key : R -> option string) (rs : list R) :
  StronglySorted str_lt (group_keys String.eqb str_leb key rs).
Proof.
  apply StronglySorted_distinct.
  - unfold group_keys.
    apply (isort_sorted str_leb (fun a b => str_leb a b = true)); auto.
    + apply StrOrd.leb_false_flip.
    + apply StrOrd.leb_trans.
  - apply group_keys_NoDup, String.eqb_eq.
Qed.

Lemma date_dim_group_keys_sorted {R : Type} (key : R -> option (Z * string)) (rs : list R) :
  StronglySorted date_dim_lt (group_keys date_dim_eqb date_dim_leb key rs).
Proof.
  apply (StronglySorted_impl (fun a b => date_dim_leb a b = true /\ a <> b)).
  - intros a b [H1 H2]. now apply date_dim_leb_strict.
  - apply StronglySorted_distinct.
    + unfold group_keys.
      apply (isort_sorted date_dim_leb (fun a b => date_dim_leb a b = true)); auto.
      * apply date_dim_leb_flip.
      * apply date_dim_leb_trans.
    + apply group_keys_NoDup, date_dim_eqb_eq.
Qed.

(** The grouped frames come out in ascending label order. *)
Lemma supplier_sums_sorted (rs : list DerivedRecord) :
  StronglySorted (fun a b => str_lt (gKey a) (gKey b)) (supplier_sums rs).
Proof.
  unfold supplier_sums, groupby. rewrite map_map.
  apply (StronglySorted_map (fun a b => str_lt (gKey a) (gKey b))). simpl.
  apply str_group_keys_sorted.
Qed.

Lemma po_by_sorted (dim : DerivedRecord -> option string) (rs : list DerivedRecord) :
  StronglySorted (fun a b => str_lt (fst a) (fst b)) (po_by dim rs).
Proof.
  unfold po_by, groupby. rewrite map_map.
  apply (StronglySorted_map (fun a b => str_lt (fst a) (fst b))). simpl.
  apply str_group_keys_sorted.
Qed.

Lemma trend_sums_sorted (dim : DerivedRecord -> option string) (rs : list DerivedRecord) :
  StronglySorted (fun a b => date_dim_lt (tDate a, tDim a) (tDate b, tDim b))
                 (trend_sums dim rs).
Proof.
  unfold trend_sums, groupby. rewrite map_map.
  apply (StronglySorted_map
           (fun a b => date_dim_lt (tDate a, tDim a) (tDate b, tDim b))). simpl.
  eapply StronglySorted_impl; [| apply date_dim_group_keys_sorted].
  intros [d1 s1] [d2 s2] H. exact H.
Qed.

(** ** Ranking *)

Lemma firstn_In {A : Type} (n : nat) (l : list A) (a : A) :
  In a (firstn n l) -> In a l.
Proof.
  intros H. rewrite <- (firstn_skipn n l). apply in_or_app. now left.
Qed.

Section NLargest.

Context {K : SortKind}.
Variable before : string * Z -> string * Z -> Prop.

Lemma nlargest_length (n : nat) (s : list (string * Z)) :
  List.length (nlargest n s) = Nat.min n (List.length s).
Proof.
  unfold nlargest. destruct n as [| m]; [reflexivity |].
  destruct (List.length s <=? S m)%nat; rewrite length_firstn.
  - now rewrite (Permutation_length (sort_values_perm snd false s)).
  - now rewrite isort_length.
Qed.

Lemma nlargest_In (n : nat) (s : list (string * Z)) (a : string * Z) :
  In a (nlargest n s) -> In a s.
Proof.
  unfold nlargest. destruct n as [| m]; [intros [] |].
  destruct (List.length s <=? S m)%nat; intros H; apply firstn_In in H.
  - eapply Permutation_in; [apply sort_values_perm | exact H].
  - now apply isort_In in H.
Qed.

(** An entry that is kept dominates an entry that is left out, and when
    their values are equal it stands before it in the series. *)
Lemma nlargest_cut (n : nat) (s : list (string * Z)) (a b : string * Z) :
  StronglySorted before s ->
  In a (nlargest n s) -> In b s -> ~ In b (nlargest n s) ->
  snd b <= snd a /\ (snd a = snd b -> before a b).
Proof.
  intros Hs. unfold nlargest. destruct n as [| m]; [intros [] |].
  destruct (Nat.leb_spec (List.length s) (S m)) as [Hle | Hgt].
  - intros _ Hb Hnot. exfalso. apply Hnot.
    rewrite firstn_all2
      by now rewrite (Permutation_length (sort_values_perm snd false s)).
    eapply Permutation_in; [apply Permutation_sym, sort_values_perm | exact Hb].
  - set (L := isort (fun x y => - snd x <=? - snd y) s).
    intros Ha Hb Hnot.
    assert (Hb2 : In b (skipn (S m) L)).
    { assert (HbL : In b L) by now apply isort_In.
      rewrite <- (firstn_skipn (S m) L) in HbL.
      apply in_app_or in HbL. destruct HbL; [contradiction | assumption]. }
    split.
    + assert (HL : StronglySorted (fun x y => - snd x <= - snd y) L)
        by apply (stable_rows_sorted (fun x => - snd x) s).
      rewrite <- (firstn_skipn (S m) L) in HL.
      pose proof (StronglySorted_app_elim _ _ _ HL a b Ha Hb2) as Hab.
      simpl in Hab. lia.
    + intros Etie.
      pose proof (stable_rows_filter (fun x => - snd x) (- snd a) s) as Hst.
      change (stable_rows (string * Z) (fun x => - snd x) s) with L in Hst.
      rewrite <- (firstn_skipn (S m) L), filter_app in Hst.
      assert (Hf : StronglySorted before
                     (filter (fun r => - snd r =? - snd a) s))
        by now apply StronglySorted_filter.
      rewrite <- Hst in Hf.
      apply (StronglySorted_app_elim _ _ _ Hf).
      * apply filter_In. split; [exact Ha | lia].
      * apply filter_In. split; [exact Hb2 | lia].
Qed.

End NLargest.


(** ** The mask, as one conjunction *)

Lemma mask_spec (c : FilterCriteria) (r : Record_) :
  mask c r
  = in_date_range c r
    && (negb (truthy (selected_suppliers c)) || isin (Supplier r) (selected_suppliers c))
    && (negb (truthy (selected_centers c)) || isin (CostCenterCode r) (selected_centers c)).
Proof.
  unfold mask.
  destruct (truthy (selected_suppliers c)), (truthy (selected_centers c)); simpl;
    rewrite ?andb_true_r; reflexivity.
Qed.

Lemma isin_incl (v : option string) (s1 s2 : list string) :
  (forall x, In x s1 -> In x s2) -> isin v s1 = true -> isin v s2 = true.
Proof.
  intros Hincl H. apply isin_true in H. destruct H as [s [-> Hs]].
  apply isin_true. exists s. auto.
Qed.

Lemma subseq_filter_impl {A : Type} (p q : A -> bool) (l : list A) :
  (forall x, In x l -> p x = true -> q x = true) ->
  subseq (filter p l) (filter q l).
Proof.
  induction l as [| x t IH]; simpl; intros H; [constructor |].
  assert (IH' : subseq (filter p t) (filter q t)) by (apply IH; intros; apply H; auto).
  destruct (p x) eqn:Ep.
  - rewrite (H x (or_introl eq_refl) Ep). now constructor.
  - destruct (q x); [now constructor | exact IH'].
Qed.

Lemma filter_filter_and {A : Type} (p q : A -> bool) (l : list A) :
  filter p (filter q l) = filter (fun x => q x && p x) l.
Proof.
  induction l as [| x t IH]; simpl; [reflexivity |].
  destruct (q x); simpl; [destruct (p x) |]; now rewrite IH.
Qed.

Lemma filter_all {A : Type} (p : A -> bool) (l : list A) :
  (forall x, In x l -> p x = true) -> filter p l = l.
Proof.
  induction l as [| x t IH]; simpl; intros H; [reflexivity |].
  rewrite (H x (or_introl eq_refl)), IH; auto.
Qed.

Lemma filter_none {A : Type} (p : A -> bool) (l : list A) :
  (forall x, In x l -> p x = false) -> filter p l = [].
Proof.
  induction l as [| x t IH]; simpl; intros H; [reflexivity |].
  rewrite (H x (or_introl eq_refl)), IH; auto.
Qed.

(** The total of any column of the supplier summary. *)
Lemma summary_column_total {K : SortKind} (val : DerivedRecord -> option Z)
    (col : AggregateRow -> Z) (rs : list DerivedRecord) :
  (forall g, col (sum_group g) = nansum (map val (snd g))) ->
  sumZ (map col (summary rs)) = nansum (map val (filter (keyed dSupplier) rs)).
Proof.
  intros Hcol. unfold summary.
  rewrite (sumZ_perm _ (map col (supplier_sums rs)))
    by apply Permutation_map, sort_values_perm.
  unfold supplier_sums, groupby. rewrite !map_map.
  rewrite <- (group_sums_total String.eqb str_leb String.eqb_eq dSupplier val).
  f_equal. apply map_ext. intros k. apply Hcol.
Qed.

(** ** Labels and totals of the grouped frames *)

Lemma supplier_sums_keys (rs : list DerivedRecord) :
  map gKey (supplier_sums rs) = group_keys String.eqb str_leb dSupplier rs.
Proof.
  unfold supplier_sums, groupby. rewrite !map_map. simpl. apply map_id.
Qed.

Lemma group_keys_annotate (recs : list Record_) :
  group_keys String.eqb str_leb dSupplier (annotate recs) = all_suppliers recs.
Proof.
  unfold group_keys, all_suppliers, all_values, annotate.
  now rewrite map_map.
Qed.

Lemma trend_sums_keys (dim : DerivedRecord -> option string) (rs : list DerivedRecord) :
  map (fun t => (tDate t, tDim t)) (trend_sums dim rs)
  = group_keys date_dim_eqb date_dim_leb (date_dim_key dim) rs.
Proof.
  unfold trend_sums, groupby. rewrite !map_map. simpl.
  rewrite <- (map_id (group_keys _ _ _ rs)) at 2.
  apply map_ext. now intros [d s].
Qed.

Lemma po_by_total (dim : DerivedRecord -> option string) (rs : list DerivedRecord) :
  sumZ (map snd (po_by dim rs)) = nansum (map dPO (filter (keyed dim) rs)).
Proof.
  unfold po_by, groupby. rewrite !map_map. simpl.
  apply (group_sums_total String.eqb str_leb String.eqb_eq dim dPO).
Qed.

Lemma po_by_keys (dim : DerivedRecord -> option string) (rs : list DerivedRecord) :
  map fst (po_by dim rs) = group_keys String.eqb str_leb dim rs.
Proof.
  unfold po_by, groupby. rewrite !map_map. simpl. apply map_id.
Qed.

Lemma keyed_date_dim (dim : DerivedRecord -> option string) (d : DerivedRecord) :
  keyed (date_dim_key dim) d = keyed dDate d && keyed dim d.
Proof.
  unfold keyed, date_dim_key. now destruct (dDate d), (dim d).
Qed.

Lemma StronglySorted_firstn {A : Type} (R : A -> A -> Prop) (n : nat) (l : list A) :
  StronglySorted R l -> StronglySorted R (firstn n l).
Proof.
  intros H. revert n. induction H as [| x t Hs IH Hx]; intros [| n]; simpl;
    try constructor.
  - apply IH.
  - rewrite Forall_forall in *. intros y Hy. apply Hx. eapply firstn_In, Hy.
Qed.

Lemma NoDup_firstn {A : Type} (n : nat) (l : list A) : NoDup l -> NoDup (firstn n l).
Proof.
  intros H. rewrite <- (firstn_skipn n l) in H. now apply NoDup_app_remove_r in H.
Qed.

Lemma nlargest_descending {K : SortKind} (n : nat) (s : list (string * Z)) :
  StronglySorted (fun a b => snd b <= snd a) (nlargest n s).
Proof.
  unfold nlargest. destruct n as [| m]; [constructor |].
  destruct (List.length s <=? S m)%nat; apply StronglySorted_firstn.
  - apply sort_values_descending.
  - eapply StronglySorted_impl;
      [| apply (stable_rows_sorted (fun x : string * Z => - snd x) s)].
    intros a b H. simpl in H. lia.
Qed.

Lemma nlargest_labels_NoDup {K : SortKind} (n : nat) (s : list (string * Z)) :
  NoDup (map fst s) -> NoDup (map fst (nlargest n s)).
Proof.
  intros H. unfold nlargest. destruct n as [| m]; [constructor |].
  destruct (List.length s <=? S m)%nat; rewrite <- firstn_map; apply NoDup_firstn.
  - eapply Permutation_NoDup; [| exact H].
    apply Permutation_map, Permutation_sym, sort_values_perm.
  - eapply Permutation_NoDup; [| exact H].
    apply Permutation_map, Permutation_sym, isort_perm.
Qed.

Lemma nlargest_all {K : SortKind} (n : nat) (s : list (string * Z)) :
  (List.length s <= n)%nat -> Permutation (nlargest n s) s.
Proof.
  intros Hle. unfold nlargest. destruct n as [| m].
  - destruct s; [constructor | simpl in Hle; lia].
  - destruct (Nat.leb_spec (List.length s) (S m)) as [_ | Hgt]; [| lia].
    rewrite firstn_all2
      by now rewrite (Permutation_length (sort_values_perm snd false s)).
    apply sort_values_perm.
Qed.

(** ** Coercion, column by column *)

Lemma coerce_cell_idem (parse_number : string -> option Z) (c : cell) :
  coerce_cell parse_number (coerce_cell parse_number c) = coerce_cell parse_number c.
Proof.
  unfold coerce_cell at 2 3. now destruct (numeric_parse parse_number c).
Qed.

Lemma to_numeric_coerce_idem (parse_number : string -> option Z) (col : list cell) :
  to_numeric_coerce parse_number (to_numeric_coerce parse_number col)
  = to_numeric_coerce parse_number col.
Proof.
  unfold to_numeric_coerce. rewrite map_map. apply map_ext, coerce_cell_idem.
Qed.

Lemma coerce_monetary_idem (parse_number : string -> option Z) (df : DataFrame) :
  coerce_monetary parse_number (coerce_monetary parse_number df)
  = coerce_monetary parse_number df.
Proof.
  unfold coerce_monetary; simpl. unfold set_col. rewrite !map_map.
  apply map_ext. intros [n c]; simpl.
  repeat match goal with
         | |- context [String.eqb n ?s] => destruct (String.eqb n s) eqn:?; simpl
         end;
    rewrite ?to_numeric_coerce_idem; try reflexivity; try discriminate;
    repeat match goal with
           | H : String.eqb _ _ = true |- _ => apply String.eqb_eq in H
           end; congruence.
Qed.

Lemma mask_same_keys (c : FilterCriteria) (r r' : Record_) :
  ReportDate r = ReportDate r' -> Supplier r = Supplier r' ->
  CostCenterCode r = CostCenterCode r' -> mask c r = mask c r'.
Proof.
  intros Hd Hs Hc. rewrite !mask_spec. unfold in_date_range.
  now rewrite Hd, Hs, Hc.
Qed.

Lemma filter_map_length {A B : Type} (p : B -> bool) (f : A -> B) (l : list A) :
  List.length (filter p (map f l)) = List.length (filter (fun x => p (f x)) l).
Proof.
  induction l as [| x t IH]; simpl; [reflexivity |].
  destruct (p (f x)); simpl; now rewrite IH.
Qed.

Lemma nansum_all_missing {R : Type} (val : R -> option Z) (l : list R) :
  (forall r, In r l -> val r = None) -> nansum (map val l) = 0.
Proof.
  induction l as [| r t IH]; intros H; simpl; [reflexivity |].
  rewrite nansum_cons, (H r (or_introl eq_refl)), IH; [reflexivity |].
  intros; apply H; simpl; auto.
Qed.

(** ** The rows of the groups *)

Lemma filter_or_perm {A : Type} (p q : A -> bool) (l : list A) :
  (forall x, p x = true -> q x = true -> False) ->
  Permutation (filter p l ++ filter q l) (filter (fun x => p x || q x) l).
Proof.
  intros Hpq. induction l as [| x t IH]; simpl; [constructor |].
  destruct (p x) eqn:Ep, (q x) eqn:Eq; simpl.
  - exfalso. eapply Hpq; eassumption.
  - now apply perm_skip.
  - eapply perm_trans; [apply Permutation_sym, Permutation_middle |].
    now apply perm_skip.
  - exact IH.
Qed.

Section GroupByRows.

Context {R K : Type}.
Variable eqbK : K -> K -> bool.
Variable lebK : K -> K -> bool.
Hypothesis eqbK_eq : forall x y, eqbK x y = true <-> x = y.
Variable key : R -> option K.

Lemma groups_concat_over (ks : list K) (rs : list R) :
  NoDup ks ->
  Permutation (List.concat (map (fun k => filter (has_key eqbK key k) rs) ks))
              (filter (fun r => match key r with
                                | Some k => existsb (eqbK k) ks
                                | None => false
                                end) rs).
Proof.
  induction 1 as [| k ks' Hnotin Hnd IH]; simpl.
  - rewrite filter_none; [constructor |]. intros r _. now destruct (key r).
  - eapply perm_trans; [apply Permutation_app_head, IH |].
    eapply perm_trans; [apply filter_or_perm |].
    + intros r Hk Hm. unfold has_key in Hk.
      destruct (key r) as [k0 |]; [| discriminate].
      apply eqbK_eq in Hk. subst k0.
      apply existsb_exists in Hm. destruct Hm as [x [Hx E]].
      apply eqbK_eq in E. now subst x.
    + erewrite filter_ext; [apply Permutation_refl |].
      intros r. unfold has_key. now destruct (key r).
Qed.

(** The groups together hold the rows that have a key, each once. *)
Lemma groupby_partition (rs : list R) :
  Permutation (List.concat (map snd (groupby eqbK lebK key rs))) (filter (keyed key) rs).
Proof.
  unfold groupby. rewrite map_map. simpl.
  eapply perm_trans;
    [apply groups_concat_over, (group_keys_NoDup eqbK lebK eqbK_eq key rs) |].
  erewrite filter_ext_in; [apply Permutation_refl |].
  intros r Hr. unfold keyed.
  destruct (key r) as [k |] eqn:E; [| reflexivity].
  apply existsb_exists. exists k. split; [| now apply eqbK_eq].
  apply (group_keys_In eqbK lebK eqbK_eq). now exists r.
Qed.


End GroupByRows.



(** ** The bounds of the date widget *)




(* ================================================================== *)
(** * Derived columns                                                  *)
(* ================================================================== *)

(** C3. [annotate] is total: it returns one annotated row for every input
    row, in order and over the same base rows.  Every row of the annotated
    frame has [Unreceipted = PO - Receipted] and
    [Uninvoiced = Receipted - Invoiced] when the operands are present, and
    each derived field is missing as soon as one of its operands is. *)
Theorem annotate_derived_fields (rs : list Record_) :
  map base (annotate rs) = rs /\
  List.length (annotate rs) = List.length rs /\
  (forall r, In r rs -> exists d, In d (annotate rs) /\ base d = r) /\
  (forall d, In d (annotate rs) ->
     (forall x y, dPO d = Some x -> dReceipted d = Some y ->
                  UnreceiptedValue d = Some (x - y)) /\
     (forall y z, dReceipted d = Some y -> dInvoiced d = Some z ->
                  UninvoicedValue d = Some (y - z)) /\
     (dPO d = None \/ dReceipted d = None -> UnreceiptedValue d = None) /\
     (dReceipted d = None \/ dInvoiced d = None -> UninvoicedValue d = None) /\
     In (base d) rs).
Proof.
  assert (Hbase : map base (annotate rs) = rs).
  { unfold annotate. rewrite map_map. simpl. apply map_id. }
  split; [exact Hbase |].
  split; [unfold annotate; apply length_map |].
  split.
  { intros r Hr. exists (annotate1 r). split; [| reflexivity].
    unfold annotate. now apply in_map. }
  intros d Hd. unfold annotate in Hd.
  apply in_map_iff in Hd. destruct Hd as [r [<- Hr]].
  unfold dPO, dReceipted, dInvoiced; simpl.
  repeat split.
  - intros x y -> ->. reflexivity.
  - intros y z -> ->. reflexivity.
  - intros [-> | ->]; [reflexivity |]. now destruct (PurchaseOrderValue r).
  - intros [-> | ->]; [reflexivity |]. now destruct (ReceiptedValue r).
  - exact Hr.
Qed.

Lemma annotate_derived_fields_witness :
  map base (annotate [line_nopo]) = [line_nopo] /\
  List.length (annotate [line_a1; line_nopo; line_b1]) = 3%nat /\
  UnreceiptedValue (annotate1 line_a1) = Some 40 /\
  UnreceiptedValue (annotate1 line_nopo) = None.
Proof.
  split; [apply (proj1 (annotate_derived_fields [line_nopo])) |].
  destruct (annotate_derived_fields [line_a1; line_nopo; line_b1])
    as (_ & Hlen & _ & Hrows).
  split; [exact Hlen |].
  split.
  - assert (H : In (annotate1 line_a1) (annotate [line_a1; line_nopo; line_b1]))
      by (simpl; auto).
    destruct (Hrows _ H) as [H1 _]. apply (H1 100 60); reflexivity.
  - assert (H : In (annotate1 line_nopo) (annotate [line_a1; line_nopo; line_b1]))
      by (simpl; auto).
    destruct (Hrows _ H) as (_ & _ & H3 & _). apply H3. left. reflexivity.
Defined.

(* ================================================================== *)
(** * Filtering                                                        *)
(* ================================================================== *)

(** C8. Filtering a filtered frame again with the same criteria changes
    nothing, and the filtered frame is the input with the rejected rows left
    out: the kept rows are those that satisfy the mask, in input order. *)
Theorem filter_idempotent_ordered (rs : list Record_) (c : FilterCriteria) :
  filter_records (filter_records rs c) c = filter_records rs c /\
  subseq (filter_records rs c) rs /\
  (forall r, In r (filter_records rs c) <-> In r rs /\ mask c r = true).
Proof.
  unfold filter_records. split; [apply filter_idem |].
  split; [apply subseq_filter |].
  intros r. apply filter_In.
Qed.

(** C2, as stated, fails: with a line whose supplier is missing, the empty
    selection keeps that line, while the selection of every supplier present
    in the data drops it. *)
Lemma empty_selection_counterexample :
  selected_suppliers open_criteria = [] /\
  filter_records [line_nosupplier; line_a1] open_criteria
    = [line_nosupplier; line_a1] /\
  filter_records [line_nosupplier; line_a1]
      (with_suppliers open_criteria (all_suppliers [line_nosupplier; line_a1]))
    = [line_a1] /\
  filter_records [line_nosupplier; line_a1] open_criteria
    <> filter_records [line_nosupplier; line_a1]
         (with_suppliers open_criteria (all_suppliers [line_nosupplier; line_a1])).
Proof.
  repeat split; try reflexivity.
  vm_compute. discriminate.
Qed.

(** C2, amended. With an empty supplier selection the supplier cell plays no
    part in the mask (a row passes or fails whatever its supplier, missing
    included), and the filtered frame equals the one obtained by selecting
    every supplier present in the data provided no row of the data has a
    missing supplier.  The same holds for the cost-centre selection. *)
Theorem empty_selection_unrestricted (rs : list Record_) (c : FilterCriteria) :
  (selected_suppliers c = [] ->
     (forall r s, mask c (set_supplier r s) = mask c r) /\
     ((forall r, In r rs -> Supplier r <> None) ->
      filter_records rs c
        = filter_records rs (with_suppliers c (all_suppliers rs)))) /\
  (selected_centers c = [] ->
     (forall r s, mask c (set_center r s) = mask c r) /\
     ((forall r, In r rs -> CostCenterCode r <> None) ->
      filter_records rs c
        = filter_records rs (with_centers c (all_centers rs)))).
Proof.
  split; intros Hempty; (split; [intros r s; unfold mask; rewrite Hempty; reflexivity |]).
  - intros Hpresent. unfold filter_records. apply filter_ext_in.
    intros r Hr. unfold mask, in_date_range; simpl. rewrite Hempty; simpl.
    destruct (all_suppliers rs) as [| s0 t] eqn:Eall; simpl; [reflexivity |].
    rewrite <- Eall. unfold all_suppliers.
    rewrite (isin_all_values Supplier rs r Hr (Hpresent r Hr)).
    now rewrite andb_true_r.
  - intros Hpresent. unfold filter_records. apply filter_ext_in.
    intros r Hr. unfold mask, in_date_range; simpl. rewrite Hempty; simpl.
    destruct (all_centers rs) as [| s0 t] eqn:Eall; simpl; [reflexivity |].
    rewrite <- Eall. unfold all_centers.
    rewrite (isin_all_values CostCenterCode rs r Hr (Hpresent r Hr)).
    destruct (truthy (selected_suppliers c)); now rewrite andb_true_r.
Qed.

Lemma empty_selection_unrestricted_witness :
  filter_records [line_a1; line_b1] open_criteria
    = filter_records [line_a1; line_b1]
        (with_suppliers open_criteria (all_suppliers [line_a1; line_b1])).
Proof.
  destruct (empty_selection_unrestricted [line_a1; line_b1] open_criteria)
    as [Hs _].
  destruct (Hs eq_refl) as [_ Hall].
  apply Hall.
  intros r [<- | [<- | []]]; discriminate.
Defined.

(* ================================================================== *)
(** * Ingestion                                                        *)
(* ================================================================== *)

(** C6. When a required column is absent the script stops at the schema
    check: the outcome is [Stopped], it carries exactly the required columns
    that are absent, the message shown names each of them, and no filtered
    frame or aggregate is produced.  When every required column is present
    the script does not stop there. *)
Theorem schema_check {K : SortKind} (parse_number : string -> option Z)
    (df : DataFrame) (c : FilterCriteria) :
  ((exists col, In col required_cols /\ ~ In col (df_columns df)) ->
   exists missing message,
     app parse_number (Some df) c = Stopped missing message /\
     (forall col, In col missing <->
                  In col required_cols /\ ~ In col (df_columns df)) /\
     (forall col, In col missing -> mentions message col) /\
     (forall r, app parse_number (Some df) c <> Rendered r) /\
     app parse_number (Some df) c <> NoData) /\
  ((forall col, In col required_cols -> In col (df_columns df)) ->
   forall missing message, app parse_number (Some df) c <> Stopped missing message).
Proof.
  split.
  - intros [col Hcol].
    apply missing_cols_In in Hcol.
    exists (missing_cols df), (schema_error_message (missing_cols df)).
    assert (E : app parse_number (Some df) c
                = Stopped (missing_cols df) (schema_error_message (missing_cols df))).
    { unfold app. destruct (missing_cols df); [destruct Hcol | reflexivity]. }
    rewrite E.
    split; [reflexivity |].
    split; [intros x; apply missing_cols_In |].
    split; [| split; [intros r |]; discriminate].
    intros x Hx. unfold schema_error_message.
    apply mentions_prefixed, join_mentions, Hx.
  - intros Hall missing message.
    assert (E : missing_cols df = []).
    { destruct (missing_cols df) as [| x t] eqn:Em; [reflexivity |].
      assert (Hx : In x (missing_cols df)) by (rewrite Em; simpl; auto).
      apply missing_cols_In in Hx. destruct Hx as [Hr Ha]. now apply Hall in Hr. }
    unfold app. rewrite E.
    destruct (min_date (records_of (coerce_monetary parse_number df)));
      [| discriminate].
    destruct (max_date (records_of (coerce_monetary parse_number df)));
      [| discriminate].
    destruct (annotate _); discriminate.
Qed.

Lemma schema_check_witness :
  app (K := stable_kind) parse_unsigned (Some short_df) open_criteria
    = Stopped ["Supplier"; "Report Date"]%string
              "Missing required columns: Supplier, Report Date"%string /\
  (forall missing message,
     app (K := stable_kind) parse_unsigned (Some sample_df) open_criteria
     <> Stopped missing message).
Proof.
  split; [reflexivity |].
  apply (proj2 (schema_check (K := stable_kind) parse_unsigned sample_df open_criteria)).
  intros col Hcol. simpl in Hcol. simpl.
  repeat (destruct Hcol as [<- | Hcol]; [tauto |]). destruct Hcol.
Defined.



(* ================================================================== *)
(** * Aggregation                                                      *)
(* ================================================================== *)

(** The two-line scenario: totals 300 / 60 / 40 / 240 / 20 and one supplier
    row. *)
Example scenario_two_lines :
  summary_kpis (annotate (filter_records [line_a1; line_a2] open_criteria))
    = {| kPO := 300; kReceipted := 60; kInvoiced := 40;
         kUnreceipted := 240; kUninvoiced := 20 |} /\
  summary (K := stable_kind) (annotate (filter_records [line_a1; line_a2] open_criteria))
    = [ {| gKey := "A"; sPO := 300; sReceipted := 60; sInvoiced := 40;
           sUnreceipted := 240; sUninvoiced := 20 |} ].
Proof. split; reflexivity. Qed.

(** A value that is not a number: the row stays in the filtered frame with
    a missing purchase order value and adds nothing to the totals. *)
Example scenario_unparseable_value :
  exists r,
    app (K := stable_kind) parse_unsigned (Some sample_df) open_criteria = Rendered r /\
    map dPO (rFiltered r) = [Some 100; None] /\
    kPO (rKPIs r) = 100 /\
    map sPO (rSummary r) = [100; 0].
Proof. eexists. split; [reflexivity |]. repeat split. Qed.






(** With two tied suppliers the default sort leaves the groups in their
    order, in the summary and in the trend frame. *)
Example two_ties_keep_order :
  map gKey (summary (K := quicksort_kind) tied_lines) = ["A"; "B"]%string /\
  map tDim (trend_df (K := quicksort_kind) tied_lines) = ["A"; "B"]%string.
Proof. split; reflexivity. Qed.

(** C4, as stated, fails: the default sort kind is not stable.  With
    eighteen suppliers of equal total, which the grouping yields in the
    order A to R, the rows of the summary are not in that order. *)
Lemma summary_stability_counterexample :
  map gKey (supplier_sums eighteen_lines) = eighteen_suppliers /\
  map sPO (supplier_sums eighteen_lines) = repeat 100 18 /\
  map gKey (summary (K := quicksort_kind) eighteen_lines) <> eighteen_suppliers /\
  filter (fun r => sPO r =? 100) (summary (K := quicksort_kind) eighteen_lines)
  <> filter (fun r => sPO r =? 100) (supplier_sums eighteen_lines).
Proof.
  split; [reflexivity |]. split; [reflexivity |].
  split; vm_compute; discriminate.
Qed.

(** C4, amended. The supplier summary holds the supplier groups, rearranged
    so that the summed purchase order value is descending; the groups are
    handed to the sort in ascending supplier order.  This holds for every
    sort kind, the default one included; nothing is promised about the
    order of rows with equal sums. *)
Theorem summary_order {K : SortKind} (rs : list DerivedRecord) :
  StronglySorted (fun a b => sPO b <= sPO a) (summary rs) /\
  Permutation (summary rs) (supplier_sums rs) /\
  StronglySorted (fun a b => str_lt (gKey a) (gKey b)) (supplier_sums rs).
Proof.
  split; [apply sort_values_descending |].
  split; [apply sort_values_perm |].
  apply supplier_sums_sorted.
Qed.

(** C9, as stated, fails on its tie rule for the same reason.  With eighteen
    suppliers on one date the frame handed to [sort_values] has its rows in
    label order, A to R, and the default sort returns them in another
    order: P follows A, and O follows P. *)
Lemma trend_ties_counterexample :
  map tDim (trend_sums dSupplier eighteen_lines) = eighteen_suppliers /\
  map tDate (trend_df (K := quicksort_kind) eighteen_lines) = repeat 1 18 /\
  map tDim (trend_df (K := quicksort_kind) eighteen_lines)
    = ["A"; "P"; "O"; "N"; "M"; "L"; "K"; "J"; "I";
       "H"; "G"; "F"; "E"; "D"; "C"; "B"; "Q"; "R"]%string /\
  ~ (forall i a b,
       nth_error (trend_df (K := quicksort_kind) eighteen_lines) i = Some a ->
       nth_error (trend_df (K := quicksort_kind) eighteen_lines) (S i) = Some b ->
       tDate a = tDate b -> str_leb (tDim a) (tDim b) = true).
Proof.
  split; [reflexivity |]. split; [reflexivity |]. split; [reflexivity |].
  intros H.
  specialize (H 1%nat {| tDate := 1; tDim := "P"; tPO := 100 |}
                {| tDate := 1; tDim := "O"; tPO := 100 |}
                eq_refl eq_refl eq_refl).
  vm_compute in H. discriminate.
Qed.

(** C9, amended. Each trend frame (the theorem is for any grouping
    dimension, so for both the supplier and the cost-centre frame) holds the
    (date, label) groups, rearranged so that the dates are ascending: every
    row's date is at most the next row's.  The groups are handed to the sort
    in ascending (date, label) order.  This holds for every sort kind, the
    default one included; nothing is promised about the order of rows that
    share a date. *)
Theorem trend_order {K : SortKind} (dim : DerivedRecord -> option string)
    (rs : list DerivedRecord) :
  (forall i a b,
     nth_error (trend dim rs) i = Some a ->
     nth_error (trend dim rs) (S i) = Some b ->
     tDate a <= tDate b) /\
  StronglySorted (fun a b => tDate a <= tDate b) (trend dim rs) /\
  Permutation (trend dim rs) (trend_sums dim rs) /\
  StronglySorted (fun a b => date_dim_lt (tDate a, tDim a) (tDate b, tDim b))
                 (trend_sums dim rs).
Proof.
  assert (Hs : StronglySorted (fun a b => tDate a <= tDate b) (trend dim rs))
    by apply sort_values_ascending.
  split; [apply (StronglySorted_adjacent _ _ Hs) |].
  split; [exact Hs |].
  split; [apply sort_values_perm |].
  apply trend_sums_sorted.
Qed.

Lemma trend_order_witness :
  tDate {| tDate := 1; tDim := "A"; tPO := 100 |}
  <= tDate {| tDate := 2; tDim := "A"; tPO := 200 |}.
Proof.
  apply (proj1 (trend_order (K := quicksort_kind) dSupplier
                  (annotate [line_a2; line_a1])) 0%nat); reflexivity.
Defined.

(** C5, as stated, fails on its tie rule.  The ranking is taken over the
    groups in ascending label order, not in the order in which the rows first
    show the labels: with a line of B before a line of A and equal totals,
    the top 1 is A, though B is seen first. *)
Lemma top_n_first_seen_counterexample :
  first_seen dSupplier tied_lines_b_first = ["B"; "A"]%string /\
  po_by dSupplier tied_lines_b_first = [("A", 100); ("B", 100)]%string /\
  top_n (K := stable_kind) dSupplier 1 tied_lines_b_first = [("A", 100)]%string /\
  ~ (forall a b,
       In a (top_n (K := stable_kind) dSupplier 1 tied_lines_b_first) ->
       In b (po_by dSupplier tied_lines_b_first) ->
       ~ In b (top_n (K := stable_kind) dSupplier 1 tied_lines_b_first) ->
       snd a = snd b ->
       seen_before (fst a) (fst b) (first_seen dSupplier tied_lines_b_first)).
Proof.
  repeat split.
  intros H.
  specialize (H ("A", 100)%string ("B", 100)%string).
  assert (Hsb : seen_before "A" "B" (first_seen dSupplier tied_lines_b_first)).
  { apply H.
    - vm_compute. auto.
    - vm_compute. auto.
    - vm_compute. intros [E | []]. discriminate.
    - reflexivity. }
  vm_compute in Hsb. lia.
Qed.

(** C5, amended. The ranking returns [min n g] groups, where [g] is the
    number of distinct present labels; every returned group's sum is at least
    every other group's sum; and of two groups with equal sums of which only
    one is returned, the returned one has the smaller label (the groups are
    ranked in ascending label order). *)
Theorem top_n_bound {K : SortKind} (dim : DerivedRecord -> option string)
    (n : nat) (rs : list DerivedRecord) :
  List.length (top_n dim n rs) = Nat.min n (List.length (first_seen dim rs)) /\
  (forall a, In a (top_n dim n rs) -> In a (po_by dim rs)) /\
  (forall a b,
     In a (top_n dim n rs) -> In b (po_by dim rs) -> ~ In b (top_n dim n rs) ->
     snd b <= snd a /\ (snd a = snd b -> str_lt (fst a) (fst b))).
Proof.
  unfold top_n. split; [| split].
  - rewrite nlargest_length. f_equal.
    unfold po_by. rewrite length_map. apply groupby_length.
  - intros a. apply nlargest_In.
  - intros a b. apply (nlargest_cut (fun x y => str_lt (fst x) (fst y))).
    apply po_by_sorted.
Qed.

Lemma top_n_bound_witness :
  100 <= 300 /\
  List.length (top_n (K := stable_kind) dSupplier 1
                 (annotate [line_b1; line_a1; line_a2])) = 1%nat.
Proof.
  split.
  - destruct (top_n_bound (K := stable_kind) dSupplier 1
                (annotate [line_b1; line_a1; line_a2])) as (_ & _ & Hcut).
    refine (proj1 (Hcut ("A", 300)%string ("B", 100)%string _ _ _)).
    + vm_compute. auto.
    + vm_compute. auto.
    + vm_compute. intros [E | []]. discriminate.
  - reflexivity.
Defined.

(* ================================================================== *)
(** * Further properties of the script                                 *)
(* ================================================================== *)

(** ** Loading *)

(** X1. A file whose name ends with none of [.csv], [.parquet], [.xlsx]
    (the test is case sensitive) is loaded as the empty frame, whatever it
    holds, so the script stops at the schema check and reports all nine
    required columns, in the order of [required_cols]. *)
Theorem unsupported_upload_stops {K : SortKind} (File : Type)
    (file_name : File -> string) (read_csv read_parquet read_excel : File -> DataFrame)
    (parse_number : string -> option Z) (file : File) (c : FilterCriteria) :
  endswith (file_name file) ".csv" = false ->
  endswith (file_name file) ".parquet" = false ->
  endswith (file_name file) ".xlsx" = false ->
  load_data File file_name read_csv read_parquet read_excel file = [] /\
  run_upload File file_name read_csv read_parquet read_excel parse_number (Some file) c
  = Stopped required_cols
      "Missing required columns: Supplier, Cost Center Code, Purchase Order Value, Receipted Value, Invoiced Value, Report Date, PO Number, Description, Item Description"%string.
Proof.
  intros H1 H2 H3.
  assert (E : load_data File file_name read_csv read_parquet read_excel file = []).
  { unfold load_data. now rewrite H1, H2, H3. }
  split; [exact E |].
  unfold run_upload. rewrite E. reflexivity.
Qed.

Lemma unsupported_upload_stops_witness :
  exists message,
    run_upload (string * DataFrame) fst snd snd snd (K := stable_kind) parse_unsigned
      (Some (sample_file "DATA.CSV")) open_criteria
    = Stopped required_cols message.
Proof.
  eexists.
  apply (unsupported_upload_stops (K := stable_kind) (string * DataFrame) fst snd snd snd
           parse_unsigned (sample_file "DATA.CSV") open_criteria); reflexivity.
Defined.

(** ** The sidebar options *)

(** X2. The supplier (cost-centre) options of the sidebar are exactly the
    suppliers (cost centres) that occur in the data, each once, in strictly
    ascending order; a missing value is never an option. *)
Theorem sidebar_options (rs : list Record_) :
  (forall s, In s (all_suppliers rs) <-> exists r, In r rs /\ Supplier r = Some s) /\
  (forall s, In s (all_centers rs) <-> exists r, In r rs /\ CostCenterCode r = Some s) /\
  StronglySorted str_lt (all_suppliers rs) /\
  StronglySorted str_lt (all_centers rs) /\
  NoDup (all_suppliers rs) /\ NoDup (all_centers rs).
Proof.
  split; [intros s; apply all_values_In |].
  split; [intros s; apply all_values_In |].
  split; [apply (str_group_keys_sorted Supplier rs) |].
  split; [apply (str_group_keys_sorted CostCenterCode rs) |].
  split.
  - apply (group_keys_NoDup String.eqb str_leb String.eqb_eq Supplier rs).
  - apply (group_keys_NoDup String.eqb str_leb String.eqb_eq CostCenterCode rs).
Qed.

(** ** The mask *)

(** X3. Every row that passes the filter has a date, and that date lies in
    the closed range of the criteria; a row with a missing date never
    passes; a range whose end is before its start lets nothing through; and
    with nothing selected a row passes exactly when its date is in the
    range, both ends included. *)
Theorem filter_dates (rs : list Record_) (c : FilterCriteria) :
  (forall r, In r (filter_records rs c) ->
     exists d, ReportDate r = Some d /\ date_start c <= d <= date_end c) /\
  (forall r, In r rs -> ReportDate r = None -> ~ In r (filter_records rs c)) /\
  (date_end c < date_start c -> filter_records rs c = []) /\
  (selected_suppliers c = [] -> selected_centers c = [] ->
   forall r d, In r rs -> ReportDate r = Some d ->
     (In r (filter_records rs c) <-> date_start c <= d <= date_end c)).
Proof.
  assert (Hin : forall r, mask c r = true ->
                  exists d, ReportDate r = Some d /\ date_start c <= d <= date_end c).
  { intros r Hm. rewrite mask_spec in Hm.
    apply andb_true_iff in Hm. destruct Hm as [Hm _].
    apply andb_true_iff in Hm. destruct Hm as [Hm _].
    unfold in_date_range in Hm. destruct (ReportDate r) as [d |]; [| discriminate].
    exists d. split; [reflexivity | lia]. }
  split; [| split; [| split]].
  - intros r Hr. apply filter_In in Hr. now apply Hin.
  - intros r _ Hnone Hr. apply filter_In in Hr.
    destruct (Hin r (proj2 Hr)) as [d [E _]]. congruence.
  - intros Hrange. apply filter_none. intros r _.
    destruct (mask c r) eqn:Em; [| reflexivity].
    destruct (Hin r Em) as [d [_ Hd]]. lia.
  - intros Hs Hc r d Hr Hd. unfold filter_records. rewrite filter_In.
    rewrite mask_spec, Hs, Hc. simpl. rewrite !andb_true_r.
    unfold in_date_range. rewrite Hd.
    rewrite andb_true_iff, !Z.leb_le. tauto.
Qed.

Lemma filter_dates_witness :
  filter_records [line_a1; line_a2]
    {| date_start := 5; date_end := 1; selected_suppliers := []; selected_centers := [] |}
  = [].
Proof.
  apply (proj1 (proj2 (proj2 (filter_dates [line_a1; line_a2]
           {| date_start := 5; date_end := 1;
              selected_suppliers := []; selected_centers := [] |})))).
  simpl. lia.
Defined.

(** X4. A supplier selection only ever removes rows from what the empty
    selection shows; under a non-empty selection every row shown has a
    supplier of the selection; and enlarging a non-empty selection never
    removes a row. *)
Theorem supplier_selection_narrows (rs : list Record_) (c : FilterCriteria)
    (s1 s2 : list string) :
  subseq (filter_records rs (with_suppliers c s1))
         (filter_records rs (with_suppliers c [])) /\
  (s1 <> [] ->
   forall r, In r (filter_records rs (with_suppliers c s1)) ->
     exists s, Supplier r = Some s /\ In s s1) /\
  (s1 <> [] -> (forall x, In x s1 -> In x s2) ->
   subseq (filter_records rs (with_suppliers c s1))
          (filter_records rs (with_suppliers c s2))).
Proof.
  split; [| split].
  - apply subseq_filter_impl. intros r _. rewrite !mask_spec; simpl.
    rewrite !andb_true_iff. tauto.
  - intros Hne r Hr. apply filter_In in Hr. destruct Hr as [_ Hm].
    rewrite mask_spec in Hm; simpl in Hm.
    destruct s1 as [| x t]; [congruence |]. simpl truthy in Hm.
    rewrite !andb_true_iff in Hm. destruct Hm as [[_ Hs] _].
    now apply isin_true in Hs.
  - intros Hne Hincl. apply subseq_filter_impl. intros r _.
    rewrite !mask_spec; simpl.
    destruct s1 as [| x t]; [congruence |]. simpl truthy.
    rewrite !andb_true_iff. intros [[Hd Hs] Hc].
    repeat split; auto.
    apply orb_true_iff. right. now apply (isin_incl _ (x :: t)).
Qed.

Lemma supplier_selection_narrows_witness :
  subseq (filter_records [line_a1; line_b1] (with_suppliers open_criteria ["A"%string]))
         (filter_records [line_a1; line_b1]
            (with_suppliers open_criteria ["A"%string; "B"%string])).
Proof.
  apply (proj2 (proj2 (supplier_selection_narrows [line_a1; line_b1] open_criteria
           ["A"%string] ["A"%string; "B"%string]))).
  - discriminate.
  - intros x [<- | []]. simpl. auto.
Defined.

(** X5. With the "select all" default, the selection is the list of every
    supplier present.  When the data has at least one supplier, that
    selection shows the rows the empty selection shows except those whose
    supplier is missing. *)
Theorem select_all_drops_missing (rs : list Record_) (c : FilterCriteria) :
  all_suppliers rs <> [] ->
  filter_records rs (with_suppliers c (all_suppliers rs))
  = filter (keyed Supplier) (filter_records rs (with_suppliers c [])).
Proof.
  intros Hne. unfold filter_records. rewrite filter_filter_and.
  apply filter_ext_in. intros r Hr. rewrite !mask_spec; simpl.
  destruct (all_suppliers rs) as [| x t] eqn:E; [congruence |]. simpl truthy.
  rewrite <- E. simpl. unfold keyed.
  destruct (Supplier r) as [s |] eqn:Es.
  - assert (H : isin (Supplier r) (all_values Supplier rs) = true)
      by (apply isin_all_values; [exact Hr | congruence]).
    unfold all_suppliers. rewrite Es in H. rewrite H.
    now rewrite !andb_true_r.
  - simpl. now rewrite andb_false_r, andb_false_r.
Qed.

Lemma select_all_drops_missing_witness :
  filter_records [line_nosupplier; line_a1]
    (with_suppliers open_criteria (all_suppliers [line_nosupplier; line_a1]))
  = [line_a1].
Proof.
  rewrite (select_all_drops_missing [line_nosupplier; line_a1] open_criteria).
  - reflexivity.
  - vm_compute. discriminate.
Defined.

(** ** The drill-down table *)

(** X6. The drill-down table applies the supplier selection once more,
    without the empty-means-all rule of the mask.  Under a non-empty
    selection it has the rows of the filtered frame; under the empty
    selection it has no row, however many rows the filtered frame has. *)
Theorem drilldown_rows (rs : list Record_) (c : FilterCriteria) :
  (selected_suppliers c <> [] ->
   drilldown_df c (annotate (filter_records rs c)) = annotate (filter_records rs c)) /\
  (selected_suppliers c = [] ->
   drilldown_df c (annotate (filter_records rs c)) = []).
Proof.
  unfold drilldown_df. split; intros Hsel.
  - apply filter_all. intros d Hd.
    apply in_map_iff in Hd. destruct Hd as [r [<- Hr]].
    apply filter_In in Hr. destruct Hr as [_ Hm].
    rewrite mask_spec in Hm.
    destruct (selected_suppliers c) as [| x t] eqn:E; [congruence |].
    simpl truthy in Hm. rewrite !andb_true_iff in Hm.
    destruct Hm as [[_ Hs] _]. exact Hs.
  - apply filter_none. intros d _. rewrite Hsel.
    unfold isin. now destruct (dSupplier d).
Qed.

Lemma drilldown_rows_witness :
  drilldown_df open_criteria (annotate (filter_records [line_a1; line_b1] open_criteria)) = [] /\
  List.length (filter_records [line_a1; line_b1] open_criteria) = 2%nat /\
  drilldown_df (with_suppliers open_criteria ["A"%string])
    (annotate (filter_records [line_a1; line_b1] (with_suppliers open_criteria ["A"%string])))
  = [annotate1 line_a1].
Proof.
  split; [| split].
  - apply (proj2 (drilldown_rows [line_a1; line_b1] open_criteria)). reflexivity.
  - reflexivity.
  - rewrite (proj1 (drilldown_rows [line_a1; line_b1]
                      (with_suppliers open_criteria ["A"%string]))).
    + reflexivity.
    + discriminate.
Defined.

(** ** Rows of the grouped frames *)

(** X10. The supplier summary has exactly one row per supplier that occurs
    in the frame: its labels are those of the supplier list of the frame,
    none twice. *)
Theorem summary_one_row_per_supplier {K : SortKind} (recs : list Record_) :
  Permutation (map gKey (summary (annotate recs))) (all_suppliers recs) /\
  NoDup (map gKey (summary (annotate recs))) /\
  List.length (summary (annotate recs)) = List.length (all_suppliers recs).
Proof.
  assert (P : Permutation (map gKey (summary (annotate recs))) (all_suppliers recs)).
  { rewrite <- group_keys_annotate, <- supplier_sums_keys.
    apply Permutation_map, sort_values_perm. }
  split; [exact P |]. split.
  - eapply Permutation_NoDup; [apply Permutation_sym, P |].
    apply (group_keys_NoDup String.eqb str_leb String.eqb_eq Supplier recs).
  - rewrite <- (length_map gKey). now apply Permutation_length.
Qed.

(** X11. A trend frame has one row per (date, label) group, and the groups
    together hold exactly the rows that have both a date and a label, each
    once.  Rows that passed the filter always have a date, so on a filtered
    frame the groups of the supplier trend hold the same rows as the groups
    of the supplier summary: both frames add up the same values. *)
Theorem trend_groups_partition {K : SortKind} (dim : DerivedRecord -> option string)
    (rs : list DerivedRecord) (recs : list Record_) (c : FilterCriteria) :
  Permutation (trend dim rs)
              (map trend_row (groupby date_dim_eqb date_dim_leb (date_dim_key dim) rs)) /\
  Permutation
    (List.concat (map snd (groupby date_dim_eqb date_dim_leb (date_dim_key dim) rs)))
    (filter (fun d => keyed dDate d && keyed dim d) rs) /\
  Permutation
    (List.concat (map snd (groupby date_dim_eqb date_dim_leb (date_dim_key dSupplier)
                             (annotate (filter_records recs c)))))
    (List.concat (map snd (groupby String.eqb str_leb dSupplier
                             (annotate (filter_records recs c))))).
Proof.
  assert (G : forall dm l,
            Permutation
              (List.concat (map snd (groupby date_dim_eqb date_dim_leb
                                       (date_dim_key dm) l)))
              (filter (fun d => keyed dDate d && keyed dm d) l)).
  { intros dm l.
    eapply perm_trans;
      [apply (groupby_partition date_dim_eqb date_dim_leb date_dim_eqb_eq) |].
    erewrite filter_ext; [apply Permutation_refl |].
    intros d. apply keyed_date_dim. }
  split; [apply sort_values_perm |].
  split; [apply G |].
  eapply perm_trans; [apply G |].
  eapply perm_trans;
    [| apply Permutation_sym,
         (groupby_partition String.eqb str_leb String.eqb_eq dSupplier)].
  erewrite filter_ext_in; [apply Permutation_refl |].
  intros d Hd.
  apply in_map_iff in Hd. destruct Hd as [r [<- Hr]].
  destruct (proj1 (filter_dates recs c) r Hr) as [t [Et _]].
  unfold keyed at 1. unfold dDate. simpl. now rewrite Et.
Qed.

(** X12. In a trend frame no (date, label) pair occurs twice, so every
    line of the chart has at most one point per date, and every pair comes
    from a row of the frame with that date and that label. *)
Theorem trend_points {K : SortKind} (dim : DerivedRecord -> option string)
    (rs : list DerivedRecord) :
  NoDup (map (fun t => (tDate t, tDim t)) (trend dim rs)) /\
  (forall t, In t (trend dim rs) ->
     exists d, In d rs /\ dDate d = Some (tDate t) /\ dim d = Some (tDim t)).
Proof.
  assert (P : Permutation (map (fun t => (tDate t, tDim t)) (trend dim rs))
                          (group_keys date_dim_eqb date_dim_leb (date_dim_key dim) rs)).
  { rewrite <- trend_sums_keys. apply Permutation_map, sort_values_perm. }
  split.
  - eapply Permutation_NoDup; [apply Permutation_sym, P |].
    apply group_keys_NoDup, date_dim_eqb_eq.
  - intros t Ht.
    assert (Hk : In (tDate t, tDim t)
                    (group_keys date_dim_eqb date_dim_leb (date_dim_key dim) rs)).
    { eapply Permutation_in; [exact P |].
      apply (in_map (fun t => (tDate t, tDim t))), Ht. }
    apply (group_keys_In date_dim_eqb date_dim_leb date_dim_eqb_eq) in Hk.
    destruct Hk as [d [Hd Hkey]]. exists d. split; [exact Hd |].
    unfold date_dim_key in Hkey.
    destruct (dDate d) as [x |], (dim d) as [s |]; try discriminate.
    injection Hkey as -> ->. auto.
Qed.

Lemma trend_points_witness :
  exists d, In d (annotate [line_a1; line_b1]) /\
            dDate d = Some 1 /\ dSupplier d = Some "B"%string.
Proof.
  apply (proj2 (trend_points (K := stable_kind) dSupplier (annotate [line_a1; line_b1]))
           {| tDate := 1; tDim := "B"; tPO := 100 |}).
  vm_compute. auto.
Defined.

(** X13. A ranking lists its groups by descending sum and no group twice.
    When there are at most [n] groups it lists all of them, and the supplier
    ranking then adds up to the same total as the supplier summary. *)
Theorem ranking_order {K : SortKind} (dim : DerivedRecord -> option string)
    (n : nat) (rs : list DerivedRecord) :
  StronglySorted (fun a b => snd b <= snd a) (top_n dim n rs) /\
  NoDup (map fst (top_n dim n rs)) /\
  ((List.length (first_seen dim rs) <= n)%nat ->
   Permutation (top_n dim n rs) (po_by dim rs)) /\
  ((List.length (first_seen dSupplier rs) <= n)%nat ->
   ranking_total_po (top_n dSupplier n rs) = rollup_total_po (summary rs)).
Proof.
  assert (Hall : forall dm, (List.length (first_seen dm rs) <= n)%nat ->
                            Permutation (top_n dm n rs) (po_by dm rs)).
  { intros dm Hle. apply nlargest_all.
    unfold po_by. rewrite length_map.
    now rewrite (groupby_length String.eqb str_leb dm rs). }
  split; [apply nlargest_descending |].
  split.
  { apply nlargest_labels_NoDup. rewrite po_by_keys.
    apply group_keys_NoDup, String.eqb_eq. }
  split; [apply Hall |].
  intros Hle. unfold ranking_total_po, rollup_total_po.
  rewrite (sumZ_perm _ (map snd (po_by dSupplier rs)))
    by apply Permutation_map, Hall, Hle.
  rewrite po_by_total. symmetry. now apply (summary_column_total dPO).
Qed.

Lemma ranking_order_witness :
  ranking_total_po (chart1 (K := quicksort_kind) (annotate [line_a1; line_b1; line_a2]))
  = rollup_total_po (summary (K := quicksort_kind) (annotate [line_a1; line_b1; line_a2])).
Proof.
  apply (proj2 (proj2 (proj2 (ranking_order (K := quicksort_kind) dSupplier 10
           (annotate [line_a1; line_b1; line_a2]))))).
  vm_compute. lia.
Defined.

(** ** The script as a whole *)



(** X15. Coercing the monetary columns a second time changes nothing: a
    coerced column holds only numbers and missing values, and those are
    kept as they are. *)
Theorem coercion_idempotent (parse_number : string -> option Z) (df : DataFrame) :
  coerce_monetary parse_number (coerce_monetary parse_number df)
  = coerce_monetary parse_number df /\
  (forall name i, In name monetary_cols ->
     (exists v, cell_at (coerce_monetary parse_number df) name i = CNum v) \/
     cell_at (coerce_monetary parse_number df) name i = CNull).
Proof.
  split; [apply coerce_monetary_idem |].
  intros name i Hname.
  rewrite coerce_monetary_cell.
  assert (E : existsb (String.eqb name) monetary_cols = true).
  { apply existsb_exists. exists name. split; [exact Hname | apply String.eqb_refl]. }
  rewrite E. unfold coerce_cell.
  destruct (numeric_parse parse_number (cell_at df name i)) as [v |].
  - left. now exists v.
  - now right.
Qed.

Lemma coercion_idempotent_witness :
  cell_at (coerce_monetary parse_unsigned sample_df) "Purchase Order Value" 1 = CNull.
Proof.
  destruct (proj2 (coercion_idempotent parse_unsigned sample_df)
              "Purchase Order Value"%string 1%nat) as [[v Hv] | Hnull].
  - simpl. auto.
  - vm_compute in Hv. discriminate.
  - exact Hnull.
Defined.

(** X16. Coercion never changes which rows pass the filter: the mask reads
    the date, the supplier and the cost centre only, so a value that is not
    a number costs a row its value, not its place in the filtered frame. *)
Theorem coercion_keeps_filter (parse_number : string -> option Z)
    (df : DataFrame) (c : FilterCriteria) :
  (forall i, mask c (row_at (coerce_monetary parse_number df) i)
             = mask c (row_at df i)) /\
  (List.length (filter_records (records_of (coerce_monetary parse_number df)) c)
   = List.length (filter_records (records_of df) c)).
Proof.
  assert (Hm : forall i, mask c (row_at (coerce_monetary parse_number df) i)
                         = mask c (row_at df i)).
  { intros i. apply mask_same_keys; unfold row_at; simpl;
      now rewrite coerce_monetary_cell. }
  split; [exact Hm |].
  unfold filter_records, records_of.
  rewrite coerce_monetary_nrows, !filter_map_length.
  f_equal. apply filter_ext. exact Hm.
Qed.

(** X17. A supplier whose rows all lack a purchase order value still has
    its row in the supplier summary, with a purchase order total of 0: the
    sum of a column without any value is 0, not missing. *)
Theorem summary_all_missing {K : SortKind} (rs : list DerivedRecord) (s : string) :
  (exists d, In d rs /\ dSupplier d = Some s) ->
  (forall d, In d rs -> dSupplier d = Some s -> dPO d = None) ->
  exists a, In a (summary rs) /\ gKey a = s /\ sPO a = 0.
Proof.
  intros Hex Hnone.
  exists (sum_group (s, filter (has_key String.eqb dSupplier s) rs)).
  split; [| split].
  - eapply Permutation_in; [apply Permutation_sym, sort_values_perm |].
    unfold supplier_sums, groupby. rewrite map_map.
    apply (in_map (fun k => sum_group (k, filter (has_key String.eqb dSupplier k) rs))).
    now apply (group_keys_In String.eqb str_leb String.eqb_eq).
  - reflexivity.
  - simpl. apply nansum_all_missing. intros d Hd.
    apply filter_In in Hd. destruct Hd as [Hd Hk].
    apply Hnone; [exact Hd |].
    unfold has_key in Hk. destruct (dSupplier d) as [k |]; [| discriminate].
    apply String.eqb_eq in Hk. now subst.
Qed.

Lemma summary_all_missing_witness :
  exists a, In a (summary (K := stable_kind) (annotate [line_nopo; line_b1])) /\
            gKey a = "A"%string /\ sPO a = 0.
Proof.
  apply (summary_all_missing (K := stable_kind) (annotate [line_nopo; line_b1]) "A").
  - exists (annotate1 line_nopo). split; [simpl; auto | reflexivity].
  - intros d [<- | [<- | []]]; [reflexivity | discriminate].
Defined.
